(** * Face-shape analysis front end: a shallow embedding of [script.js]

    The script wires a file input and a camera view to [POST /analyze] and
    renders the parsed JSON answer.  The embedding follows the script function
    by function: the page is a record of the elements the script looks up,
    every handler is a state transformer that may throw, and the values that
    come back from [response.json()] are JSON values with the ECMAScript
    conversions ([ToBoolean], [ToString], [ToNumber]) the script applies to
    them implicitly.

    Numbers are IEEE 754 binary64 values (primitive floats).  Strings are
    sequences of 8-bit characters and stand for ASCII text: [toUpperCase],
    white-space trimming and [encodeURIComponent] are the ECMAScript ones on
    ASCII strings. *)

From Stdlib Require Import ZArith Floats String Ascii List Bool Lia.
From stdpp Require Import base gmap strings.
Import ListNotations.

Set Warnings "-register-all,-clear-no-such-hyp".

Local Open Scope string_scope.
Local Open Scope Z_scope.

(** ** Completion records: a value, or a thrown exception *)

(** The message of an error is the engine's; the texts used below are
    those of one engine, and no property depends on them. *)
Inductive exn : Type :=
  | TypeError (what : string)
  | SyntaxError (what : string)
  | DOMException (name : string).

Inductive completion (A : Type) : Type :=
  | Normal (a : A)
  | Throw (e : exn).

Arguments Normal {A} a.
Arguments Throw {A} e.

#[global] Instance completion_ret : MRet completion := fun A a => Normal a.

#[global] Instance completion_bind : MBind completion := fun A B k c =>
  match c with
  | Normal a => k a
  | Throw e => Throw e
  end.

(** ** JSON values, as [response.json()] produces them *)

Inductive JsVal : Type :=
  | JUndefined
  | JNull
  | JBool (b : bool)
  | JNum (x : float)
  | JStr (s : string)
  | JArr (items : list JsVal)
  | JObj (fields : list (string * JsVal)).

(** Induction on JSON values, with the elements of an array and the values
    of an object as premises. *)
Section JsVal_induction.
Variable P : JsVal -> Prop.
Hypothesis Hundefined : P JUndefined.
Hypothesis Hnull : P JNull.
Hypothesis Hbool : forall b, P (JBool b).
Hypothesis Hnum : forall x, P (JNum x).
Hypothesis Hstr : forall s, P (JStr s).
Hypothesis Harr : forall items, Forall P items -> P (JArr items).
Hypothesis Hobj :
  forall fields, Forall (fun kv => P (snd kv)) fields -> P (JObj fields).

Fixpoint JsVal_nested_ind (v : JsVal) : P v :=
  match v with
  | JUndefined => Hundefined
  | JNull => Hnull
  | JBool b => Hbool b
  | JNum x => Hnum x
  | JStr s => Hstr s
  | JArr items =>
      Harr items
        ((fix all (l : list JsVal) : Forall P l :=
            match l with
            | [] => @List.Forall_nil _ P
            | x :: rest =>
                @List.Forall_cons _ P x rest (JsVal_nested_ind x) (all rest)
            end) items)
  | JObj fields =>
      Hobj fields
        ((fix all (l : list (string * JsVal))
            : Forall (fun kv => P (snd kv)) l :=
            match l with
            | [] => @List.Forall_nil _ _
            | kv :: rest =>
                @List.Forall_cons _ (fun kv => P (snd kv)) kv rest
                  (JsVal_nested_ind (snd kv)) (all rest)
            end) fields)
  end.
End JsVal_induction.

(** Own property of a parsed object; the first binding of a key is the one
    the object holds. *)
Fixpoint assoc (k : string) (fields : list (string * JsVal)) : option JsVal :=
  match fields with
  | [] => None
  | (k', v) :: rest => if String.eqb k k' then Some v else assoc k rest
  end.

(** [v.name] for the property names the script reads.  None of them is
    defined on the prototypes of strings, numbers, booleans or arrays, so
    those give [undefined]; reading a property of [null] or [undefined]
    throws. *)
Definition get (v : JsVal) (name : string) : completion JsVal :=
  match v with
  | JUndefined =>
      Throw (TypeError ("Cannot read properties of undefined (reading '"
                        +:+ name +:+ "')"))
  | JNull =>
      Throw (TypeError ("Cannot read properties of null (reading '"
                        +:+ name +:+ "')"))
  | JObj fields =>
      match assoc name fields with
      | Some x => Normal x
      | None => Normal JUndefined
      end
  | _ => Normal JUndefined
  end.

(** [ToBoolean]. *)
Definition is_nan_or_zero (x : float) : bool :=
  match Prim2SF x with
  | S754_nan | S754_zero _ => true
  | _ => false
  end.

Definition truthy (v : JsVal) : bool :=
  match v with
  | JUndefined | JNull => false
  | JBool b => b
  | JNum x => negb (is_nan_or_zero x)
  | JStr s => negb (String.eqb s "")
  | JArr _ | JObj _ => true
  end.

(** ** Numbers *)

(** A finite number is [m * 2^e] for a mantissa [m] and an exponent [e]
    ([Prim2SF]); the conversions below compute on these exactly, in [Z].

    The number with sign [neg] and magnitude [z], for [z] up to [2^53]. *)
Definition float_of_Z (neg : bool) (z : Z) : float :=
  match z with
  | Z.pos p => SF2Prim (S754_finite neg p 0)
  | _ => SF2Prim (S754_zero neg)
  end.

(** [Math.round]: the integer closest to [x], ties towards plus infinity.
    It is computed exactly, as [floor (x + 1/2)] over the rationals; the
    sign of a zero result is the sign of [x]. *)
Definition Math_round (x : float) : float :=
  match Prim2SF x with
  | S754_finite neg m e =>
      if 0 <=? e then x
      else
        let v := if neg then Z.neg m else Z.pos m in
        float_of_Z neg (Z.abs ((2 * v + 2 ^ (- e)) / 2 ^ (1 - e)))
  | _ => x
  end.

(** Decimal digits of a non-negative integer. *)
Definition digit_char (d : Z) : ascii := ascii_of_nat (48 + Z.to_nat d).

Fixpoint digits_fuel (fuel : nat) (z : Z) (acc : string) : string :=
  match fuel with
  | O => acc
  | S fuel' =>
      let acc' := String (digit_char (z mod 10)) acc in
      if z <? 10 then acc' else digits_fuel fuel' (z / 10) acc'
  end.

Definition Z_digits (z : Z) : string :=
  digits_fuel (S (Z.to_nat (Z.log2 z))) z "".

Fixpoint zeros (n : nat) : string :=
  match n with
  | O => ""
  | S n' => String "0" (zeros n')
  end.

Fixpoint take_str (n : nat) (s : string) : string :=
  match n, s with
  | S n', String c s' => String c (take_str n' s')
  | _, _ => ""
  end.

Fixpoint drop_str (n : nat) (s : string) : string :=
  match n, s with
  | S n', String _ s' => drop_str n' s'
  | _, _ => s
  end.

(** [m * 2^e] against [s * 10^p], both positive, by cross multiplication. *)
Definition cmp_bin_dec (m e s p : Z) : comparison :=
  Z.compare (m * 2 ^ Z.max e 0 * 10 ^ Z.max (- p) 0)
            (s * 10 ^ Z.max p 0 * 2 ^ Z.max (- e) 0).

(** [floor (m * 2^e / 10^p)]. *)
Definition floor_bin_dec (m e p : Z) : Z :=
  (m * 2 ^ Z.max e 0 * 10 ^ Z.max (- p) 0) / (10 ^ Z.max p 0 * 2 ^ Z.max (- e) 0).

(** The least [n] with [m * 2^e < 10^n], searched upwards from [n]. *)
Fixpoint dec_exponent (fuel : nat) (m e n : Z) : Z :=
  match fuel with
  | O => n
  | S fuel' =>
      match cmp_bin_dec m e 1 n with
      | Lt => n
      | _ => dec_exponent fuel' m e (n + 1)
      end
  end.

(** Does the decimal [s * 10^p] round to the double [m * 2^e]?  The rounding
    interval reaches half a unit in the last place above [m * 2^e], and half
    the distance to the predecessor below it (the predecessor is closer when
    [m] is the least mantissa of its binade); its end points belong to it
    when [m] is even. *)
Definition rounds_to (m e s p : Z) : bool :=
  let above := cmp_bin_dec (2 * m + 1) (e - 1) s p in
  let below :=
    if (m =? 2 ^ 52) && (-1074 <? e)
    then cmp_bin_dec (4 * m - 1) (e - 2) s p
    else cmp_bin_dec (2 * m - 1) (e - 1) s p in
  let closed := Z.even m in
  match below, above with
  | Lt, Gt => true
  | Eq, _ | _, Eq => closed
  | _, _ => false
  end.

(** The shortest decimal [s * 10^(n - k)] with [k] digits that rounds to
    [m * 2^e], tried for [k], [k + 1], ...; among two candidates with [k]
    digits the closer one, and the even one when they are as close. *)
Fixpoint shortest (fuel : nat) (m e n k : Z) : Z * Z * Z :=
  let p := n - k in
  let lo := floor_bin_dec m e p in
  let hi := lo + 1 in
  let pick (s : Z) := if s =? 10 ^ k then (10 ^ (k - 1), n + 1, k) else (s, n, k) in
  match fuel with
  | O => pick lo
  | S fuel' =>
      match rounds_to m e lo p, rounds_to m e hi p with
      | true, true =>
          match cmp_bin_dec (2 * m) e (2 * lo + 1) p with
          | Lt => pick lo
          | Gt => pick hi
          | Eq => if Z.even lo then pick lo else pick hi
          end
      | true, false => pick lo
      | false, true => pick hi
      | false, false => shortest fuel' m e n (k + 1)
      end
  end.

(** [Number::toString] in radix 10, for a positive finite [m * 2^e]. *)
Definition format_decimal (s n k : Z) : string :=
  let ds := Z_digits s in
  let exponent (n1 : Z) :=
    String "e" (String (if 0 <=? n1 then "+"%char else "-"%char) (Z_digits (Z.abs n1))) in
  if (k <=? n) && (n <=? 21) then ds ++ zeros (Z.to_nat (n - k))
  else if (0 <? n) && (n <=? 21) then
    take_str (Z.to_nat n) ds ++ "." ++ drop_str (Z.to_nat n) ds
  else if (-6 <? n) && (n <=? 0) then "0." ++ zeros (Z.to_nat (- n)) ++ ds
  else if k =? 1 then ds ++ exponent (n - 1)
  else take_str 1 ds ++ "." ++ drop_str 1 ds ++ exponent (n - 1).

Definition NumberToString (x : float) : string :=
  match Prim2SF x with
  | S754_nan => "NaN"
  | S754_zero _ => "0"
  | S754_infinity neg => if neg then "-Infinity" else "Infinity"
  | S754_finite neg m e =>
      let n := dec_exponent 700 (Z.pos m) e (-324) in
      let '(s, n', k) := shortest 17 (Z.pos m) e n 1 in
      (if neg then "-" else "") ++ format_decimal s n' k
  end.

(** The double nearest to the positive rational [num / den], ties to the
    even mantissa; [infinity] from [2^1024 - 2^970] on. *)
Definition round_to_double (neg : bool) (num den : Z) : float :=
  let scaled (e : Z) := (num * 2 ^ Z.max (- e) 0, den * 2 ^ Z.max e 0) in
  let e1 := Z.log2 num - Z.log2 den - 53 in
  let '(n1, d1) := scaled e1 in
  let e := Z.max (if 2 ^ 53 <=? n1 / d1 then e1 + 1 else e1) (-1074) in
  let '(n, d) := scaled e in
  let q := n / d in
  let r := n mod d in
  let m :=
    match Z.compare (2 * r) d with
    | Lt => q
    | Gt => q + 1
    | Eq => if Z.even q then q else q + 1
    end in
  if (971 <? e) || ((e =? 971) && (2 ^ 53 <=? m))
  then SF2Prim (S754_infinity neg)
  else
    match m with
    | Z.pos p => SF2Prim (S754_finite neg p e)
    | _ => SF2Prim (S754_zero neg)
    end.

(** The double nearest to [d * 10^p], for [0 <= d].  Outside the decimal
    range of the doubles the answer is known without computing the power. *)
Definition decimal_to_double (neg : bool) (d p : Z) : float :=
  if d =? 0 then SF2Prim (S754_zero neg)
  else
    let len := Z.of_nat (String.length (Z_digits d)) in
    if 310 <? p + len then SF2Prim (S754_infinity neg)
    else if p + len <? -330 then SF2Prim (S754_zero neg)
    else round_to_double neg (d * 10 ^ Z.max p 0) (10 ^ Z.max (- p) 0).

(** ** Strings *)

Definition is_white_space (c : ascii) : bool :=
  let n := nat_of_ascii c in
  (((9 <=? n) && (n <=? 13)) || (n =? 32))%nat.

Fixpoint trim_start (s : string) : string :=
  match s with
  | String c s' => if is_white_space c then trim_start s' else s
  | EmptyString => s
  end.

Fixpoint rev_onto (s acc : string) : string :=
  match s with
  | String c s' => rev_onto s' (String c acc)
  | EmptyString => acc
  end.

Definition trim (s : string) : string :=
  rev_onto (trim_start (rev_onto (trim_start s) "")) "".

Definition digit_value (base : Z) (c : ascii) : option Z :=
  let n := Z.of_nat (nat_of_ascii c) in
  let v :=
    if (48 <=? n) && (n <=? 57) then n - 48
    else if (97 <=? n) && (n <=? 102) then n - 87
    else if (65 <=? n) && (n <=? 70) then n - 55
    else 16 in
  if v <? base then Some v else None.

(** Reads the longest prefix of digits in [base]: the accumulated value,
    how many digits were read, and the rest. *)
Fixpoint read_digits (base : Z) (s : string) (acc : Z) (count : Z) : Z * Z * string :=
  match s with
  | String c s' =>
      match digit_value base c with
      | Some v => read_digits base s' (acc * base + v) (count + 1)
      | None => (acc, count, s)
      end
  | EmptyString => (acc, count, s)
  end.

Definition read_sign (s : string) : bool * string :=
  match s with
  | String "-" s' => (true, s')
  | String "+" s' => (false, s')
  | _ => (false, s)
  end.

Definition nan : float := SF2Prim S754_nan.

(** [StrDecimalLiteral]: a sign, then [Infinity] or decimal digits with an
    optional fraction and an optional exponent. *)
Definition parse_decimal (s : string) : float :=
  let '(neg, s1) := read_sign s in
  if String.eqb s1 "Infinity" then SF2Prim (S754_infinity neg)
  else
    let '(ip, ni, s2) := read_digits 10 s1 0 0 in
    let '(fp, nf, s3) :=
      match s2 with
      | String "." s2' => read_digits 10 s2' ip 0
      | _ => (ip, 0, s2)
      end in
    if ni + nf =? 0 then nan
    else
      match s3 with
      | EmptyString => decimal_to_double neg fp (- nf)
      | String c s3' =>
          if Ascii.eqb c "e" || Ascii.eqb c "E" then
            let '(eneg, s4) := read_sign s3' in
            let '(ex, ne, s5) := read_digits 10 s4 0 0 in
            if (0 <? ne) && String.eqb s5 ""
            then decimal_to_double neg fp ((if eneg then - ex else ex) - nf)
            else nan
          else nan
      end.

(** [NonDecimalIntegerLiteral]: [0x], [0o] or [0b] and at least one digit. *)
Definition parse_radix (base : Z) (s : string) : float :=
  let '(v, n, rest) := read_digits base s 0 0 in
  if (0 <? n) && String.eqb rest "" then decimal_to_double false v 0 else nan.

(** [StringToNumber]. *)
Definition StringToNumber (s : string) : float :=
  match trim s with
  | EmptyString => SF2Prim (S754_zero false)
  | String "0" (String c rest) as t =>
      if Ascii.eqb c "x" || Ascii.eqb c "X" then parse_radix 16 rest
      else if Ascii.eqb c "o" || Ascii.eqb c "O" then parse_radix 8 rest
      else if Ascii.eqb c "b" || Ascii.eqb c "B" then parse_radix 2 rest
      else parse_decimal t
  | t => parse_decimal t
  end.

(** [String.prototype.toUpperCase] on ASCII text: the letters [a] to [z]
    go to [A] to [Z] and nothing else changes.  Outside ASCII the engine
    maps other letters too, which this does not; what is proved of a result
    of [toUpperCase] is proved for ASCII strings ([is_ascii] on every
    character). *)
Definition is_ascii (c : ascii) : bool := (nat_of_ascii c <? 128)%nat.

Definition upper_char (c : ascii) : ascii :=
  let n := nat_of_ascii c in
  if ((97 <=? n) && (n <=? 122))%nat then ascii_of_nat (n - 32) else c.

Fixpoint toUpperCase (s : string) : string :=
  match s with
  | String c s' => String (upper_char c) (toUpperCase s')
  | EmptyString => EmptyString
  end.

(** [encodeURIComponent]: every character but the unreserved ones
    (letters, digits and [- _ . ! ~ * ' ( )]) becomes [%XX]. *)
Definition is_uri_unreserved (c : ascii) : bool :=
  let n := nat_of_ascii c in
  (((65 <=? n) && (n <=? 90)) || ((97 <=? n) && (n <=? 122))
   || ((48 <=? n) && (n <=? 57))
   || existsb (Nat.eqb n) [45; 95; 46; 33; 126; 42; 39; 40; 41])%nat.

Definition hex_char (d : nat) : ascii :=
  if (d <? 10)%nat then ascii_of_nat (48 + d) else ascii_of_nat (55 + d).

Fixpoint encodeURIComponent (s : string) : string :=
  match s with
  | String c s' =>
      if is_uri_unreserved c then String c (encodeURIComponent s')
      else
        let n := nat_of_ascii c in
        String "%" (String (hex_char (n / 16)) (String (hex_char (n mod 16))
          (encodeURIComponent s')))
  | EmptyString => EmptyString
  end.

(** ** Conversions of JSON values *)

Definition has_key (k : string) (fields : list (string * JsVal)) : bool :=
  match assoc k fields with
  | Some _ => true
  | None => false
  end.

(** [ToString].  An array is joined with commas, [null] and [undefined]
    elements giving the empty string.  A parsed object is ["[object Object]"]
    through [Object.prototype.toString], unless it has a [toString] property
    of its own: that is never callable, [valueOf] does not give a primitive
    either, and the conversion throws. *)
Fixpoint join_with (sep : string) (l : list string) : string :=
  match l with
  | [] => ""
  | [s] => s
  | s :: rest => s +:+ sep +:+ join_with sep rest
  end.

Fixpoint ToString (v : JsVal) : completion string :=
  match v with
  | JUndefined => Normal "undefined"
  | JNull => Normal "null"
  | JBool b => Normal (if b then "true" else "false")
  | JNum x => Normal (NumberToString x)
  | JStr s => Normal s
  | JArr items =>
      let element (x : JsVal) :=
        match x with
        | JUndefined | JNull => Normal ""
        | _ => ToString x
        end in
      match
        (fix each (l : list JsVal) : completion (list string) :=
           match l with
           | [] => Normal []
           | x :: rest =>
               match element x with
               | Normal s =>
                   match each rest with
                   | Normal ss => Normal (s :: ss)
                   | Throw e => Throw e
                   end
               | Throw e => Throw e
               end
           end) items
      with
      | Normal ss => Normal (join_with "," ss)
      | Throw e => Throw e
      end
  | JObj fields =>
      if has_key "toString" fields
      then Throw (TypeError "Cannot convert object to primitive value")
      else Normal "[object Object]"
  end.

(** [ToNumber].  Arrays and objects go through their string form. *)
Definition ToNumber (v : JsVal) : completion float :=
  match v with
  | JUndefined => Normal nan
  | JNull => Normal (SF2Prim (S754_zero false))
  | JBool b => Normal (if b then 1%float else 0%float)
  | JNum x => Normal x
  | JStr s => Normal (StringToNumber s)
  | JArr _ | JObj _ => s ← ToString v; Normal (StringToNumber s)
  end.

(** ** The pattern of [file.type.match('image.*')]

    [match] with a string argument builds [new RegExp('image.*')] and
    searches the subject for it at every position. *)

Inductive atom : Type :=
  | Chr (c : ascii)
  | AnyChar.

Inductive piece : Type :=
  | One (a : atom)
  | Star (a : atom).

Definition is_line_terminator (c : ascii) : bool :=
  Ascii.eqb c "010" || Ascii.eqb c "013".

Definition atom_matches (a : atom) (c : ascii) : bool :=
  match a with
  | Chr c' => Ascii.eqb c' c
  | AnyChar => negb (is_line_terminator c)
  end.

Fixpoint match_here (r : list piece) (s : string) {struct r} : bool :=
  match r with
  | [] => true
  | One a :: r' =>
      match s with
      | String c s' => atom_matches a c && match_here r' s'
      | EmptyString => false
      end
  | Star a :: r' =>
      (fix star (s : string) : bool :=
         match_here r' s ||
         match s with
         | String c s' => atom_matches a c && star s'
         | EmptyString => false
         end) s
  end.

Fixpoint regex_search (r : list piece) (s : string) : bool :=
  match_here r s ||
  match s with
  | String _ s' => regex_search r s'
  | EmptyString => false
  end.

Definition image_pattern : list piece :=
  [One (Chr "i"); One (Chr "m"); One (Chr "a"); One (Chr "g"); One (Chr "e");
   Star AnyChar].

(** The types the pattern is found in are those with [image] somewhere in
    them; [contains] says it without a pattern. *)
Fixpoint starts_with (p s : string) : bool :=
  match p, s with
  | EmptyString, _ => true
  | String a p', String b s' => Ascii.eqb a b && starts_with p' s'
  | String _ _, EmptyString => false
  end.

Fixpoint contains (needle s : string) : bool :=
  starts_with needle s ||
  match s with
  | String _ s' => contains needle s'
  | EmptyString => false
  end.

Fixpoint all_chars (p : ascii -> bool) (s : string) : bool :=
  match s with
  | String c s' => p c && all_chars p s'
  | EmptyString => true
  end.

(** ** The page and its environment *)

Record File : Type := {
  file_name : string;
  file_type : string;
  file_bytes : list Byte.byte
}.

Inductive FormEntry : Type :=
  | FileEntry (f : File)
  | TextEntry (s : string).

Inductive Body : Type :=
  | FormDataBody (entries : list (string * FormEntry))
  | StringBody (s : string).

(** One call of [fetch], with the headers the script passes.  (For form
    data the browser adds the multipart content type and its boundary.) *)
Record Request : Type := {
  req_url : string;
  req_method : string;
  req_headers : list (string * string);
  req_body : Body
}.

(** What a pending [fetch] settles with: the error it rejects with when
    the network fails, or a response.  [resp_json] is what
    [response.json()] settles with in turn: the parsed value, or the error it
    rejects with when the body is not JSON.  The errors are the engine's. *)
Record Response : Type := {
  resp_status : Z;
  resp_json : completion JsVal
}.

Inductive FetchOutcome : Type :=
  | NetworkFailure (e : exn)
  | Responded (r : Response).

Record Button : Type := {
  btn_text : string;
  btn_classes : gset string
}.

(** The frame the video element shows: its intrinsic size and the JPEG data
    URL that encoding it gives. *)
Record Frame : Type := {
  frame_width : N;
  frame_height : N;
  frame_jpeg : string
}.

Record State : Type := {
  (* variables of the script *)
  isCameraActive : bool;
  stream : option nat;
  (* elements looked up when the document is loaded *)
  captureButton : option Button;
  capturePhotoButton : bool;
  cancelCaptureButton : bool;
  cameraContainer : gset string;
  video_srcObject : option nat;
  canvas_width : N;
  canvas_height : N;
  resultContainer : gset string;
  resultContainer_innerHTML : string;
  loadingSpinner : gset string;
  errorMessage : gset string;
  errorMessage_textContent : string;
  (* the environment *)
  camera_supported : bool;
  video_frame : Frame;
  streams : gmap nat (list bool);
  pending_camera : nat;
  pending_fetches : nat;
  requests : list Request;
  scroll_requests : nat;
  console : list (string * exn)
}.

(** Assignments to one field. *)
Definition set_isCameraActive (x : bool) (s : State) : State :=
  {| isCameraActive := x; stream := stream s; captureButton := captureButton
     s; capturePhotoButton := capturePhotoButton s; cancelCaptureButton :=
     cancelCaptureButton s; cameraContainer := cameraContainer s;
     video_srcObject := video_srcObject s; canvas_width := canvas_width s;
     canvas_height := canvas_height s; resultContainer := resultContainer s;
     resultContainer_innerHTML := resultContainer_innerHTML s;
     loadingSpinner := loadingSpinner s; errorMessage := errorMessage s;
     errorMessage_textContent := errorMessage_textContent s;
     camera_supported := camera_supported s; video_frame := video_frame s;
     streams := streams s; pending_camera := pending_camera s;
     pending_fetches := pending_fetches s; requests := requests s;
     scroll_requests := scroll_requests s; console := console s |}.

Definition set_stream (x : option nat) (s : State) : State :=
  {| isCameraActive := isCameraActive s; stream := x; captureButton :=
     captureButton s; capturePhotoButton := capturePhotoButton s;
     cancelCaptureButton := cancelCaptureButton s; cameraContainer :=
     cameraContainer s; video_srcObject := video_srcObject s; canvas_width
     := canvas_width s; canvas_height := canvas_height s; resultContainer :=
     resultContainer s; resultContainer_innerHTML :=
     resultContainer_innerHTML s; loadingSpinner := loadingSpinner s;
     errorMessage := errorMessage s; errorMessage_textContent :=
     errorMessage_textContent s; camera_supported := camera_supported s;
     video_frame := video_frame s; streams := streams s; pending_camera :=
     pending_camera s; pending_fetches := pending_fetches s; requests :=
     requests s; scroll_requests := scroll_requests s; console := console s |}.

Definition set_captureButton (x : option Button) (s : State) : State :=
  {| isCameraActive := isCameraActive s; stream := stream s; captureButton
     := x; capturePhotoButton := capturePhotoButton s; cancelCaptureButton
     := cancelCaptureButton s; cameraContainer := cameraContainer s;
     video_srcObject := video_srcObject s; canvas_width := canvas_width s;
     canvas_height := canvas_height s; resultContainer := resultContainer s;
     resultContainer_innerHTML := resultContainer_innerHTML s;
     loadingSpinner := loadingSpinner s; errorMessage := errorMessage s;
     errorMessage_textContent := errorMessage_textContent s;
     camera_supported := camera_supported s; video_frame := video_frame s;
     streams := streams s; pending_camera := pending_camera s;
     pending_fetches := pending_fetches s; requests := requests s;
     scroll_requests := scroll_requests s; console := console s |}.

Definition set_cameraContainer (x : gset string) (s : State) : State :=
  {| isCameraActive := isCameraActive s; stream := stream s; captureButton
     := captureButton s; capturePhotoButton := capturePhotoButton s;
     cancelCaptureButton := cancelCaptureButton s; cameraContainer := x;
     video_srcObject := video_srcObject s; canvas_width := canvas_width s;
     canvas_height := canvas_height s; resultContainer := resultContainer s;
     resultContainer_innerHTML := resultContainer_innerHTML s;
     loadingSpinner := loadingSpinner s; errorMessage := errorMessage s;
     errorMessage_textContent := errorMessage_textContent s;
     camera_supported := camera_supported s; video_frame := video_frame s;
     streams := streams s; pending_camera := pending_camera s;
     pending_fetches := pending_fetches s; requests := requests s;
     scroll_requests := scroll_requests s; console := console s |}.

Definition set_video_srcObject (x : option nat) (s : State) : State :=
  {| isCameraActive := isCameraActive s; stream := stream s; captureButton
     := captureButton s; capturePhotoButton := capturePhotoButton s;
     cancelCaptureButton := cancelCaptureButton s; cameraContainer :=
     cameraContainer s; video_srcObject := x; canvas_width := canvas_width
     s; canvas_height := canvas_height s; resultContainer := resultContainer
     s; resultContainer_innerHTML := resultContainer_innerHTML s;
     loadingSpinner := loadingSpinner s; errorMessage := errorMessage s;
     errorMessage_textContent := errorMessage_textContent s;
     camera_supported := camera_supported s; video_frame := video_frame s;
     streams := streams s; pending_camera := pending_camera s;
     pending_fetches := pending_fetches s; requests := requests s;
     scroll_requests := scroll_requests s; console := console s |}.

Definition set_canvas_width (x : N) (s : State) : State :=
  {| isCameraActive := isCameraActive s; stream := stream s; captureButton
     := captureButton s; capturePhotoButton := capturePhotoButton s;
     cancelCaptureButton := cancelCaptureButton s; cameraContainer :=
     cameraContainer s; video_srcObject := video_srcObject s; canvas_width
     := x; canvas_height := canvas_height s; resultContainer :=
     resultContainer s; resultContainer_innerHTML :=
     resultContainer_innerHTML s; loadingSpinner := loadingSpinner s;
     errorMessage := errorMessage s; errorMessage_textContent :=
     errorMessage_textContent s; camera_supported := camera_supported s;
     video_frame := video_frame s; streams := streams s; pending_camera :=
     pending_camera s; pending_fetches := pending_fetches s; requests :=
     requests s; scroll_requests := scroll_requests s; console := console s |}.

Definition set_canvas_height (x : N) (s : State) : State :=
  {| isCameraActive := isCameraActive s; stream := stream s; captureButton
     := captureButton s; capturePhotoButton := capturePhotoButton s;
     cancelCaptureButton := cancelCaptureButton s; cameraContainer :=
     cameraContainer s; video_srcObject := video_srcObject s; canvas_width
     := canvas_width s; canvas_height := x; resultContainer :=
     resultContainer s; resultContainer_innerHTML :=
     resultContainer_innerHTML s; loadingSpinner := loadingSpinner s;
     errorMessage := errorMessage s; errorMessage_textContent :=
     errorMessage_textContent s; camera_supported := camera_supported s;
     video_frame := video_frame s; streams := streams s; pending_camera :=
     pending_camera s; pending_fetches := pending_fetches s; requests :=
     requests s; scroll_requests := scroll_requests s; console := console s |}.

Definition set_resultContainer (x : gset string) (s : State) : State :=
  {| isCameraActive := isCameraActive s; stream := stream s; captureButton
     := captureButton s; capturePhotoButton := capturePhotoButton s;
     cancelCaptureButton := cancelCaptureButton s; cameraContainer :=
     cameraContainer s; video_srcObject := video_srcObject s; canvas_width
     := canvas_width s; canvas_height := canvas_height s; resultContainer :=
     x; resultContainer_innerHTML := resultContainer_innerHTML s;
     loadingSpinner := loadingSpinner s; errorMessage := errorMessage s;
     errorMessage_textContent := errorMessage_textContent s;
     camera_supported := camera_supported s; video_frame := video_frame s;
     streams := streams s; pending_camera := pending_camera s;
     pending_fetches := pending_fetches s; requests := requests s;
     scroll_requests := scroll_requests s; console := console s |}.

Definition set_resultContainer_innerHTML (x : string) (s : State) : State :=
  {| isCameraActive := isCameraActive s; stream := stream s; captureButton
     := captureButton s; capturePhotoButton := capturePhotoButton s;
     cancelCaptureButton := cancelCaptureButton s; cameraContainer :=
     cameraContainer s; video_srcObject := video_srcObject s; canvas_width
     := canvas_width s; canvas_height := canvas_height s; resultContainer :=
     resultContainer s; resultContainer_innerHTML := x; loadingSpinner :=
     loadingSpinner s; errorMessage := errorMessage s;
     errorMessage_textContent := errorMessage_textContent s;
     camera_supported := camera_supported s; video_frame := video_frame s;
     streams := streams s; pending_camera := pending_camera s;
     pending_fetches := pending_fetches s; requests := requests s;
     scroll_requests := scroll_requests s; console := console s |}.

Definition set_loadingSpinner (x : gset string) (s : State) : State :=
  {| isCameraActive := isCameraActive s; stream := stream s; captureButton
     := captureButton s; capturePhotoButton := capturePhotoButton s;
     cancelCaptureButton := cancelCaptureButton s; cameraContainer :=
     cameraContainer s; video_srcObject := video_srcObject s; canvas_width
     := canvas_width s; canvas_height := canvas_height s; resultContainer :=
     resultContainer s; resultContainer_innerHTML :=
     resultContainer_innerHTML s; loadingSpinner := x; errorMessage :=
     errorMessage s; errorMessage_textContent := errorMessage_textContent s;
     camera_supported := camera_supported s; video_frame := video_frame s;
     streams := streams s; pending_camera := pending_camera s;
     pending_fetches := pending_fetches s; requests := requests s;
     scroll_requests := scroll_requests s; console := console s |}.

Definition set_errorMessage (x : gset string) (s : State) : State :=
  {| isCameraActive := isCameraActive s; stream := stream s; captureButton
     := captureButton s; capturePhotoButton := capturePhotoButton s;
     cancelCaptureButton := cancelCaptureButton s; cameraContainer :=
     cameraContainer s; video_srcObject := video_srcObject s; canvas_width
     := canvas_width s; canvas_height := canvas_height s; resultContainer :=
     resultContainer s; resultContainer_innerHTML :=
     resultContainer_innerHTML s; loadingSpinner := loadingSpinner s;
     errorMessage := x; errorMessage_textContent := errorMessage_textContent
     s; camera_supported := camera_supported s; video_frame := video_frame
     s; streams := streams s; pending_camera := pending_camera s;
     pending_fetches := pending_fetches s; requests := requests s;
     scroll_requests := scroll_requests s; console := console s |}.

Definition set_errorMessage_textContent (x : string) (s : State) : State :=
  {| isCameraActive := isCameraActive s; stream := stream s; captureButton
     := captureButton s; capturePhotoButton := capturePhotoButton s;
     cancelCaptureButton := cancelCaptureButton s; cameraContainer :=
     cameraContainer s; video_srcObject := video_srcObject s; canvas_width
     := canvas_width s; canvas_height := canvas_height s; resultContainer :=
     resultContainer s; resultContainer_innerHTML :=
     resultContainer_innerHTML s; loadingSpinner := loadingSpinner s;
     errorMessage := errorMessage s; errorMessage_textContent := x;
     camera_supported := camera_supported s; video_frame := video_frame s;
     streams := streams s; pending_camera := pending_camera s;
     pending_fetches := pending_fetches s; requests := requests s;
     scroll_requests := scroll_requests s; console := console s |}.

Definition set_video_frame (x : Frame) (s : State) : State :=
  {| isCameraActive := isCameraActive s; stream := stream s; captureButton
     := captureButton s; capturePhotoButton := capturePhotoButton s;
     cancelCaptureButton := cancelCaptureButton s; cameraContainer :=
     cameraContainer s; video_srcObject := video_srcObject s; canvas_width
     := canvas_width s; canvas_height := canvas_height s; resultContainer :=
     resultContainer s; resultContainer_innerHTML :=
     resultContainer_innerHTML s; loadingSpinner := loadingSpinner s;
     errorMessage := errorMessage s; errorMessage_textContent :=
     errorMessage_textContent s; camera_supported := camera_supported s;
     video_frame := x; streams := streams s; pending_camera :=
     pending_camera s; pending_fetches := pending_fetches s; requests :=
     requests s; scroll_requests := scroll_requests s; console := console s |}.

Definition set_streams (x : gmap nat (list bool)) (s : State) : State :=
  {| isCameraActive := isCameraActive s; stream := stream s; captureButton
     := captureButton s; capturePhotoButton := capturePhotoButton s;
     cancelCaptureButton := cancelCaptureButton s; cameraContainer :=
     cameraContainer s; video_srcObject := video_srcObject s; canvas_width
     := canvas_width s; canvas_height := canvas_height s; resultContainer :=
     resultContainer s; resultContainer_innerHTML :=
     resultContainer_innerHTML s; loadingSpinner := loadingSpinner s;
     errorMessage := errorMessage s; errorMessage_textContent :=
     errorMessage_textContent s; camera_supported := camera_supported s;
     video_frame := video_frame s; streams := x; pending_camera :=
     pending_camera s; pending_fetches := pending_fetches s; requests :=
     requests s; scroll_requests := scroll_requests s; console := console s |}.

Definition set_pending_camera (x : nat) (s : State) : State :=
  {| isCameraActive := isCameraActive s; stream := stream s; captureButton
     := captureButton s; capturePhotoButton := capturePhotoButton s;
     cancelCaptureButton := cancelCaptureButton s; cameraContainer :=
     cameraContainer s; video_srcObject := video_srcObject s; canvas_width
     := canvas_width s; canvas_height := canvas_height s; resultContainer :=
     resultContainer s; resultContainer_innerHTML :=
     resultContainer_innerHTML s; loadingSpinner := loadingSpinner s;
     errorMessage := errorMessage s; errorMessage_textContent :=
     errorMessage_textContent s; camera_supported := camera_supported s;
     video_frame := video_frame s; streams := streams s; pending_camera :=
     x; pending_fetches := pending_fetches s; requests := requests s;
     scroll_requests := scroll_requests s; console := console s |}.

Definition set_pending_fetches (x : nat) (s : State) : State :=
  {| isCameraActive := isCameraActive s; stream := stream s; captureButton
     := captureButton s; capturePhotoButton := capturePhotoButton s;
     cancelCaptureButton := cancelCaptureButton s; cameraContainer :=
     cameraContainer s; video_srcObject := video_srcObject s; canvas_width
     := canvas_width s; canvas_height := canvas_height s; resultContainer :=
     resultContainer s; resultContainer_innerHTML :=
     resultContainer_innerHTML s; loadingSpinner := loadingSpinner s;
     errorMessage := errorMessage s; errorMessage_textContent :=
     errorMessage_textContent s; camera_supported := camera_supported s;
     video_frame := video_frame s; streams := streams s; pending_camera :=
     pending_camera s; pending_fetches := x; requests := requests s;
     scroll_requests := scroll_requests s; console := console s |}.

Definition set_requests (x : list Request) (s : State) : State :=
  {| isCameraActive := isCameraActive s; stream := stream s; captureButton
     := captureButton s; capturePhotoButton := capturePhotoButton s;
     cancelCaptureButton := cancelCaptureButton s; cameraContainer :=
     cameraContainer s; video_srcObject := video_srcObject s; canvas_width
     := canvas_width s; canvas_height := canvas_height s; resultContainer :=
     resultContainer s; resultContainer_innerHTML :=
     resultContainer_innerHTML s; loadingSpinner := loadingSpinner s;
     errorMessage := errorMessage s; errorMessage_textContent :=
     errorMessage_textContent s; camera_supported := camera_supported s;
     video_frame := video_frame s; streams := streams s; pending_camera :=
     pending_camera s; pending_fetches := pending_fetches s; requests := x;
     scroll_requests := scroll_requests s; console := console s |}.

Definition set_scroll_requests (x : nat) (s : State) : State :=
  {| isCameraActive := isCameraActive s; stream := stream s; captureButton
     := captureButton s; capturePhotoButton := capturePhotoButton s;
     cancelCaptureButton := cancelCaptureButton s; cameraContainer :=
     cameraContainer s; video_srcObject := video_srcObject s; canvas_width
     := canvas_width s; canvas_height := canvas_height s; resultContainer :=
     resultContainer s; resultContainer_innerHTML :=
     resultContainer_innerHTML s; loadingSpinner := loadingSpinner s;
     errorMessage := errorMessage s; errorMessage_textContent :=
     errorMessage_textContent s; camera_supported := camera_supported s;
     video_frame := video_frame s; streams := streams s; pending_camera :=
     pending_camera s; pending_fetches := pending_fetches s; requests :=
     requests s; scroll_requests := x; console := console s |}.

Definition set_console (x : list (string * exn)) (s : State) : State :=
  {| isCameraActive := isCameraActive s; stream := stream s; captureButton
     := captureButton s; capturePhotoButton := capturePhotoButton s;
     cancelCaptureButton := cancelCaptureButton s; cameraContainer :=
     cameraContainer s; video_srcObject := video_srcObject s; canvas_width
     := canvas_width s; canvas_height := canvas_height s; resultContainer :=
     resultContainer s; resultContainer_innerHTML :=
     resultContainer_innerHTML s; loadingSpinner := loadingSpinner s;
     errorMessage := errorMessage s; errorMessage_textContent :=
     errorMessage_textContent s; camera_supported := camera_supported s;
     video_frame := video_frame s; streams := streams s; pending_camera :=
     pending_camera s; pending_fetches := pending_fetches s; requests :=
     requests s; scroll_requests := scroll_requests s; console := x |}.


(** ** The functions of the script *)

Inductive result : Type :=
  | Done (s : State)
  | Threw (e : exn) (s : State).

Definition state_of (r : result) : State :=
  match r with
  | Done s => s
  | Threw _ s => s
  end.

Definition and_then (r : result) (k : State -> result) : result :=
  match r with
  | Done s => k s
  | Threw e s => Threw e s
  end.

Definition classList_add (c : string) (l : gset string) : gset string := l ∪ {[c]}.
Definition classList_remove (c : string) (l : gset string) : gset string := l ∖ {[c]}.
Definition classList_contains (c : string) (l : gset string) : bool :=
  bool_decide (c ∈ l).

(** The markup of the result card, cut at its nine substitutions.  It is
    written here with an apostrophe wherever the script has a quotation mark;
    [markup] puts the quotation marks back. *)
Definition quotation_mark : ascii := ascii_of_nat 34.

Fixpoint markup (s : string) : string :=
  match s with
  | String c s' =>
      String (if Ascii.eqb c "'" then quotation_mark else c) (markup s')
  | EmptyString => EmptyString
  end.

Definition card_0 : string := markup "
            <div class='card mb-4'>
                <div class='card-header'>
                    <h3 class='mb-0'>Face Shape Analysis Result</h3>
                </div>
                <div class='card-body'>
                    <div class='row'>
                        <div class='col-md-6'>
                            <img src='".

Definition card_1 : string := markup "' alt='Face with landmarks' class='img-fluid mb-3'>
                        </div>
                        <div class='col-md-6'>
                            <h4 class='text-primary'>Your Face Shape: <span class='badge bg-primary'>".

Definition card_2 : string := markup "</span></h4>
                            <p>".

Definition card_3 : string := markup "</p>
                            
                            <h5 class='mt-4'>Face Measurements:</h5>
                            <ul class='list-group'>
                                <li class='list-group-item d-flex justify-content-between align-items-center'>
                                    Face Height
                                    <span class='badge bg-secondary rounded-pill'>".

Definition card_4 : string := markup "</span>
                                </li>
                                <li class='list-group-item d-flex justify-content-between align-items-center'>
                                    Forehead Width
                                    <span class='badge bg-secondary rounded-pill'>".

Definition card_5 : string := markup "</span>
                                </li>
                                <li class='list-group-item d-flex justify-content-between align-items-center'>
                                    Cheekbone Width
                                    <span class='badge bg-secondary rounded-pill'>".

Definition card_6 : string := markup "</span>
                                </li>
                                <li class='list-group-item d-flex justify-content-between align-items-center'>
                                    Jawline Width
                                    <span class='badge bg-secondary rounded-pill'>".

Definition card_7 : string := markup "</span>
                                </li>
                                <li class='list-group-item d-flex justify-content-between align-items-center'>
                                    Width-to-Height Ratio
                                    <span class='badge bg-secondary rounded-pill'>".

Definition card_8 : string := markup "</span>
                                </li>
                            </ul>
                            
                            <div class='alert alert-info mt-3'>
                                <strong>Analysis Confidence:</strong> ".

Definition card_9 : string := markup "%
                            </div>
                        </div>
                    </div>
                </div>
            </div>
        ".

(** Show and hide the loading spinner. *)
Definition showLoading (s : State) : State :=
  let s := set_loadingSpinner (classList_remove "d-none" (loadingSpinner s)) s in
  let s := set_errorMessage (classList_add "d-none" (errorMessage s)) s in
  set_resultContainer (classList_add "d-none" (resultContainer s)) s.

Definition hideLoading (s : State) : State :=
  set_loadingSpinner (classList_add "d-none" (loadingSpinner s)) s.

(** The value an assignment to [textContent] stores: the empty string for
    [null] and [undefined], the string form of anything else. *)
Definition to_text (v : JsVal) : completion string :=
  match v with
  | JUndefined | JNull => Normal ""
  | _ => ToString v
  end.

Definition showError (message : JsVal) (s : State) : result :=
  let s := hideLoading s in
  match to_text message with
  | Normal t =>
      let s := set_errorMessage_textContent t s in
      Done (set_errorMessage (classList_remove "d-none" (errorMessage s)) s)
  | Throw e => Threw e s
  end.

(** [data.face_shape.toUpperCase()]: only a string has the method. *)
Definition call_toUpperCase (v : JsVal) : completion string :=
  match v with
  | JStr s => Normal (toUpperCase s)
  | JUndefined =>
      Throw (TypeError "Cannot read properties of undefined (reading 'toUpperCase')")
  | JNull =>
      Throw (TypeError "Cannot read properties of null (reading 'toUpperCase')")
  | _ => Throw (TypeError "data.face_shape.toUpperCase is not a function")
  end.

Definition measurement (data : JsVal) (name : string) : completion string :=
  m ← get data "measurements"; x ← get m name; ToString x.

Definition confidence_percent (data : JsVal) : completion string :=
  c ← get data "confidence";
  x ← ToNumber c;
  Normal (NumberToString (Math_round (PrimFloat.mul x 100%float))).

(** The template literal assigned to [resultContainer.innerHTML]; the
    substitutions are evaluated and converted from left to right. *)
Definition result_card (data : JsVal) : completion string :=
  image ← (x ← get data "image_with_landmarks"; ToString x);
  shape ← (x ← get data "face_shape"; call_toUpperCase x);
  description ← (x ← get data "description"; ToString x);
  height ← measurement data "face_height";
  top ← measurement data "face_width_top";
  middle ← measurement data "face_width_middle";
  bottom ← measurement data "face_width_bottom";
  ratio ← measurement data "width_to_height_ratio";
  percent ← confidence_percent data;
  Normal (card_0 +:+ image +:+ card_1 +:+ shape +:+ card_2 +:+ description
          +:+ card_3 +:+ height +:+ card_4 +:+ top +:+ card_5 +:+ middle
          +:+ card_6 +:+ bottom +:+ card_7 +:+ ratio +:+ card_8 +:+ percent
          +:+ card_9).

Definition unknown_error : string :=
  "An unknown error occurred during face analysis.".

Definition handleAnalysisResult (data : JsVal) (s : State) : result :=
  let s := hideLoading s in
  match get data "error" with
  | Throw e => Threw e s
  | Normal error =>
      if truthy error then showError error s
      else
        match get data "success" with
        | Throw e => Threw e s
        | Normal success =>
            if negb (truthy success) then
              match get data "message" with
              | Throw e => Threw e s
              | Normal message =>
                  showError (if truthy message then message else JStr unknown_error) s
              end
            else
              match result_card data with
              | Throw e => Threw e s
              | Normal html =>
                  let s := set_resultContainer_innerHTML html s in
                  let s := set_resultContainer
                             (classList_remove "d-none" (resultContainer s)) s in
                  Done (set_scroll_requests (S (scroll_requests s)) s)
              end
        end
  end.

(** [fetch]: the request leaves, its promise is pending. *)
Definition fetch (r : Request) (s : State) : State :=
  let s := set_requests (r :: requests s) s in
  set_pending_fetches (S (pending_fetches s)) s.

Definition processImageFile (file : File) (s : State) : State :=
  fetch {| req_url := "/analyze"; req_method := "POST"; req_headers := [];
           req_body := FormDataBody [("image", FileEntry file)] |} s.

Definition processImageData (imageData : string) (s : State) : State :=
  fetch {| req_url := "/analyze"; req_method := "POST";
           req_headers := [("Content-Type", "application/x-www-form-urlencoded")];
           req_body := StringBody ("image_data=" +:+ encodeURIComponent imageData) |} s.

(** [console.error(label, e)]: the label and the error, as they are. *)
Definition console_error (label : string) (e : exn) (s : State) : State :=
  set_console (console s ++ [(label, e)]) s.

Definition transport_message : string :=
  "An error occurred while processing the image. Please try again.".

(** The [catch] that ends both promise chains of [fetch]. *)
Definition fetch_catch (e : exn) (s : State) : State :=
  let s := console_error "Error:" e s in
  state_of (showError (JStr transport_message) s).

(** A pending [fetch] settles: [response.json()], then
    [handleAnalysisResult], and [catch] for whatever rejects or throws on
    the way.  The status of the response is not looked at. *)
Definition fetch_settled (o : FetchOutcome) (s : State) : State :=
  let s := set_pending_fetches (Nat.pred (pending_fetches s)) s in
  match o with
  | NetworkFailure e => fetch_catch e s
  | Responded r =>
      match resp_json r with
      | Throw e => fetch_catch e s
      | Normal data =>
          match handleAnalysisResult data s with
          | Done s' => s'
          | Threw e s' => fetch_catch e s'
          end
      end
  end.

(** The capture button as [startCamera] and [stopCamera] leave it.  The
    listeners are added under [if (captureButton)], these assignments are
    not: without the button they throw. *)
Definition relabel (text add remove : string) (s : State) : result :=
  match captureButton s with
  | Some b =>
      let classes := classList_add add (classList_remove remove (btn_classes b)) in
      Done (set_captureButton (Some {| btn_text := text; btn_classes := classes |}) s)
  | None => Threw (TypeError "Cannot set properties of null (setting 'textContent')") s
  end.

Definition unsupported_message : string :=
  "Your browser does not support camera access. Please use the file upload option.".

(** [startCamera], up to the call of [getUserMedia]. *)
Definition startCamera (s : State) : result :=
  if camera_supported s
  then Done (set_pending_camera (S (pending_camera s)) s)
  else showError (JStr unsupported_message) s.

(** A video that was just given a source has no frame yet. *)
Definition no_frame : Frame :=
  {| frame_width := 0; frame_height := 0; frame_jpeg := "" |}.

(** Its [then]: the stream [h] was granted.  ([video.play()] starts the
    playback; nothing the script reads depends on it.) *)
Definition camera_then (h : nat) (s : State) : result :=
  let s := set_stream (Some h) s in
  let s := set_video_frame no_frame (set_video_srcObject (Some h) s) in
  let s := set_isCameraActive true s in
  let s := set_cameraContainer (classList_remove "d-none" (cameraContainer s)) s in
  relabel "Cancel" "btn-danger" "btn-primary" s.

Definition camera_message : string :=
  "Could not access the camera. Please check permissions or use the file upload option.".

(** Its [catch]. *)
Definition camera_catch (e : exn) (s : State) : State :=
  let s := console_error "Error accessing camera: " e s in
  state_of (showError (JStr camera_message) s).

(** A pending [getUserMedia] settles, with a new stream of so many live
    tracks or with a rejection. *)
Definition new_handle (s : State) : nat :=
  S (fold_right Nat.max 0%nat (elements (dom (streams s)))).

Definition camera_settled (o : nat + exn) (s : State) : State :=
  let s := set_pending_camera (Nat.pred (pending_camera s)) s in
  match o with
  | inl tracks =>
      let h := new_handle s in
      let s := set_streams (<[h := replicate tracks true]> (streams s)) s in
      match camera_then h s with
      | Done s' => s'
      | Threw e s' => camera_catch e s'
      end
  | inr e => camera_catch e s
  end.

Definition stopCamera (s : State) : result :=
  let s :=
    match stream s with
    | Some h =>
        let s := set_streams (alter (map (fun _ => false)) h (streams s)) s in
        let s := set_video_srcObject None s in
        set_stream None s
    | None => s
    end in
  let s := set_isCameraActive false s in
  let s := set_cameraContainer (classList_add "d-none" (cameraContainer s)) s in
  relabel "Use Camera" "btn-primary" "btn-danger" s.

(** [video.videoWidth] and [video.videoHeight]: zero while the element has
    no source or no frame yet. *)
Definition videoWidth (s : State) : N :=
  match video_srcObject s with
  | Some _ => frame_width (video_frame s)
  | None => 0%N
  end.

Definition videoHeight (s : State) : N :=
  match video_srcObject s with
  | Some _ => frame_height (video_frame s)
  | None => 0%N
  end.

(** [canvas.toDataURL('image/jpeg')] just after [drawImage] copied the
    frame of the video: a bitmap with no pixels gives ["data:,"], any other
    the JPEG of the frame.  [drawImage] draws nothing and does not throw
    while the video has no frame. *)
Definition toDataURL (s : State) : string :=
  if (canvas_width s =? 0)%N || (canvas_height s =? 0)%N
  then "data:,"
  else frame_jpeg (video_frame s).

Definition capturePhoto (s : State) : string * State :=
  let s := set_canvas_width (videoWidth s) s in
  let s := set_canvas_height (videoHeight s) s in
  (toDataURL s, s).

(** ** The listeners *)

Definition imageUpload_change (files : list File) (s : State) : result :=
  match files with
  | file :: _ =>
      if negb (regex_search image_pattern (file_type file))
      then showError (JStr "Please select an image file (jpg, png, etc.)") s
      else Done (processImageFile file (showLoading s))
  | [] => Done s
  end.

Definition captureButton_click (s : State) : result :=
  if isCameraActive s then stopCamera s else startCamera s.

Definition capturePhoto_click (s : State) : result :=
  if isCameraActive s then
    let '(photo, s) := capturePhoto s in
    and_then (stopCamera s) (fun s => Done (processImageData photo (showLoading s)))
  else Done s.

Definition cancelCapture_click (s : State) : result := stopCamera s.

(** What happens to the page: the user acts on an element, the video gets a
    new frame, or a pending promise settles. *)
Inductive Event : Type :=
  | FileSelected (files : list File)
  | CaptureClicked
  | CapturePhotoClicked
  | CancelClicked
  | FrameArrived (f : Frame)
  | CameraSettled (o : nat + exn)
  | FetchSettled (o : FetchOutcome).

(** An event can happen when its listener was added, or its promise is
    pending. *)
Definition enabled (ev : Event) (s : State) : bool :=
  match ev with
  | FileSelected _ => true
  | CaptureClicked => bool_decide (is_Some (captureButton s))
  | CapturePhotoClicked => capturePhotoButton s
  | CancelClicked => cancelCaptureButton s
  | FrameArrived _ => bool_decide (is_Some (video_srcObject s))
  | CameraSettled _ => (0 <? pending_camera s)%nat
  | FetchSettled _ => (0 <? pending_fetches s)%nat
  end.

(** An exception that leaves a listener is reported and goes no further. *)
Definition step (ev : Event) (s : State) : State :=
  match ev with
  | FileSelected files => state_of (imageUpload_change files s)
  | CaptureClicked => state_of (captureButton_click s)
  | CapturePhotoClicked => state_of (capturePhoto_click s)
  | CancelClicked => state_of (cancelCapture_click s)
  | FrameArrived f => set_video_frame f s
  | CameraSettled o => camera_settled o s
  | FetchSettled o => fetch_settled o s
  end.

Fixpoint run (evs : list Event) (s : State) : option State :=
  match evs with
  | [] => Some s
  | ev :: rest => if enabled ev s then run rest (step ev s) else None
  end.

(** The regions of the page. *)
Definition visible (classes : gset string) : bool :=
  negb (classList_contains "d-none" classes).

(** Nothing is shown and nothing is going on: the page as it is loaded. *)
Definition idle (s : State) : bool :=
  negb (visible (loadingSpinner s)) && negb (visible (resultContainer s))
  && negb (visible (errorMessage s)) && negb (visible (cameraContainer s))
  && negb (isCameraActive s) && bool_decide (stream s = None)
  && bool_decide (video_srcObject s = None)
  && (pending_camera s =? 0)%nat && (pending_fetches s =? 0)%nat.

(** A page with every element, as the template of the site serves it: the
    four regions carry [d-none], the capture button reads "Use Camera". *)
Definition sample_page : State :=
  {| isCameraActive := false; stream := None;
     captureButton :=
       Some {| btn_text := "Use Camera"; btn_classes := {[ "btn"; "btn-primary" ]} |};
     capturePhotoButton := true; cancelCaptureButton := true;
     cameraContainer := {[ "d-none" ]}; video_srcObject := None;
     canvas_width := 300%N; canvas_height := 150%N;
     resultContainer := {[ "d-none" ]}; resultContainer_innerHTML := "";
     loadingSpinner := {[ "d-none" ]};
     errorMessage := {[ "alert"; "alert-danger"; "d-none" ]};
     errorMessage_textContent := "";
     camera_supported := true;
     video_frame := no_frame;
     streams := ∅; pending_camera := 0; pending_fetches := 0; requests := [];
     scroll_requests := 0; console := [] |}.

Definition sample_file (type : string) : File :=
  {| file_name := "face"; file_type := type; file_bytes := [] |}.

Definition sample_measurements : JsVal :=
  JObj [("face_height", JNum 210%float); ("face_width_top", JNum 140%float);
        ("face_width_middle", JNum 150%float); ("face_width_bottom", JNum 120%float);
        ("width_to_height_ratio", JNum 0.75%float)].

(** [{success: true, confidence: 0.873, face_shape: "oval", ...}]; 0.873 is
    the double [0x1.bef9db22d0e56p-1]. *)
Definition sample_fields : list (string * JsVal) :=
  [("success", JBool true); ("face_shape", JStr "oval");
   ("description", JStr "Balanced proportions.");
   ("image_with_landmarks", JStr "data:image/jpeg;base64,AAAA");
   ("measurements", sample_measurements);
   ("confidence", JNum 0x1.bef9db22d0e56p-1%float)].

Definition sample_success : JsVal := JObj sample_fields.

(** The page once the camera was granted and shows a frame. *)
Definition sample_frame : Frame :=
  {| frame_width := 640%N; frame_height := 480%N;
     frame_jpeg := "data:image/jpeg;base64,/9j/4AAQ" |}.

Definition sample_camera : State :=
  step (FrameArrived sample_frame)
    (step (CameraSettled (inl 1%nat)) (step CaptureClicked sample_page)).

(** The page once the camera was granted, before the video has a frame. *)
Definition sample_camera_no_frame : State :=
  step (CameraSettled (inl 1%nat)) (step CaptureClicked sample_page).

Definition sample_response : FetchOutcome :=
  Responded {| resp_status := 200; resp_json := Normal sample_success |}.

(** The page while an uploaded image is analysed. *)
Definition sample_loading : State :=
  step (FileSelected [sample_file "image/png"]) sample_page.

(** ** What a handler leaves on the page *)

(** The value of [data.name] for a parsed object. *)
Definition field (name : string) (fields : list (string * JsVal)) : JsVal :=
  match assoc name fields with
  | Some v => v
  | None => JUndefined
  end.

(** The object without its property [name]. *)
Definition without (name : string) (fields : list (string * JsVal))
  : list (string * JsVal) :=
  List.filter (fun kv => negb (String.eqb name (fst kv))) fields.

(** [r] ends normally and the error banner shows [t]: the banner is
    visible with that text, the spinner is hidden, the result region is as
    it was in [s]. *)
Definition displays_error (t : string) (s : State) (r : result) : Prop :=
  exists s', r = Done s'
    /\ errorMessage_textContent s' = t
    /\ visible (errorMessage s') = true
    /\ visible (loadingSpinner s') = false
    /\ resultContainer s' = resultContainer s
    /\ resultContainer_innerHTML s' = resultContainer_innerHTML s.

(** [r] ends normally and the result region shows the card [html]: the
    region is visible with that markup, the spinner is hidden, the error
    banner is as it was in [s]. *)
Definition renders_result (html : string) (s : State) (r : result) : Prop :=
  exists s', r = Done s'
    /\ resultContainer_innerHTML s' = html
    /\ visible (resultContainer s') = true
    /\ visible (loadingSpinner s') = false
    /\ errorMessage s' = errorMessage s
    /\ errorMessage_textContent s' = errorMessage_textContent s.

(** [r] is a throw that left the page as [hideLoading] made it: neither the
    result region nor the error banner was touched. *)
Definition throws_after_hideLoading (s : State) (r : result) : Prop :=
  exists what, r = Threw (TypeError what) (hideLoading s).

(** The regions as the specification wants them once an operation has
    settled: the result region or the error banner, not both, and neither
    the spinner nor the camera. *)
Definition settled_regions (s : State) : bool :=
  xorb (visible (resultContainer s)) (visible (errorMessage s))
  && negb (visible (loadingSpinner s))
  && negb (visible (cameraContainer s)).

(** The banner shows the fixed message of the [catch] of [fetch], and the
    error that was caught went to the console. *)
Definition transport_banner (detail : exn) (s s' : State) : Prop :=
  errorMessage_textContent s' = transport_message
  /\ visible (errorMessage s') = true
  /\ visible (loadingSpinner s') = false
  /\ resultContainer s' = resultContainer s
  /\ console s' = (console s ++ [("Error:", detail)])%list.

(** ** What the script keeps true of the page *)

(** The part of the state that belongs to the camera. *)
Definition camera_part (s : State)
  : bool * option nat * option nat * gset string * option Button
    * gmap nat (list bool) :=
  (isCameraActive s, stream s, video_srcObject s, cameraContainer s,
   captureButton s, streams s).

(** The camera is open exactly when the script holds a stream: the video
    shows that stream, its tracks are live, the camera region is visible,
    and the capture button offers to cancel. *)
Definition camera_consistent (s : State) : Prop :=
  video_srcObject s = stream s
  /\ isCameraActive s = bool_decide (is_Some (stream s))
  /\ visible (cameraContainer s) = isCameraActive s
  /\ (forall h, stream s = Some h ->
        exists tracks, streams s !! h = Some tracks /\ forallb id tracks = true)
  /\ (forall b, isCameraActive s = true -> captureButton s = Some b ->
        btn_text b = "Cancel"
        /\ classList_contains "btn-danger" (btn_classes b) = true
        /\ classList_contains "btn-primary" (btn_classes b) = false).

(** The spinner turns only while a request is pending. *)
Definition spinner_pending (s : State) : Prop :=
  visible (loadingSpinner s) = true -> (0 < pending_fetches s)%nat.

(** The two requests the script can send. *)
Definition analyze_request (r : Request) : Prop :=
  req_url r = "/analyze" /\ req_method r = "POST"
  /\ match req_body r with
     | FormDataBody [(name, FileEntry file)] =>
         name = "image" /\ req_headers r = []
         /\ contains "image" (file_type file) = true
     | StringBody body =>
         starts_with "image_data=" body = true
         /\ req_headers r = [("Content-Type", "application/x-www-form-urlencoded")]
     | _ => False
     end.

Definition spinner_part (s : State) : gset string * nat :=
  (loadingSpinner s, pending_fetches s).

(** The capture button was clicked twice before the camera answered, and
    the first of the two grants has arrived. *)
Definition sample_double_click : State :=
  step (CameraSettled (inl 1%nat))
    (step CaptureClicked (step CaptureClicked sample_page)).

(** * Properties *)

(** ** Class lists *)

Lemma visible_remove (l : gset string) :
  visible (classList_remove "d-none" l) = true.
Proof.
  unfold visible, classList_contains, classList_remove.
  rewrite bool_decide_eq_false_2; [reflexivity | set_solver].
Qed.

Lemma visible_add (l : gset string) :
  visible (classList_add "d-none" l) = false.
Proof.
  unfold visible, classList_contains, classList_add.
  rewrite bool_decide_eq_true_2; [reflexivity | set_solver].
Qed.

Lemma classList_add_idem (c : string) (l : gset string) :
  classList_add c (classList_add c l) = classList_add c l.
Proof. unfold classList_add. set_solver. Qed.

Lemma classList_swap_idem (c d : string) (l : gset string) :
  classList_add c (classList_remove d (classList_add c (classList_remove d l)))
  = classList_add c (classList_remove d l).
Proof. unfold classList_add, classList_remove. set_solver. Qed.

(** ** Reading a parsed object *)

Lemma get_object (fields : list (string * JsVal)) (name : string) :
  get (JObj fields) name = Normal (field name fields).
Proof. unfold get, field. destruct (assoc name fields); reflexivity. Qed.

Lemma assoc_without_other (name k : string) (fields : list (string * JsVal)) :
  k <> name -> assoc k (without name fields) = assoc k fields.
Proof.
  intros Hne. induction fields as [|[k' v] rest IH]; [reflexivity|].
  cbn [without List.filter fst]. fold (without name rest).
  destruct (String.eqb_spec name k') as [->|Hk']; cbn [negb].
  - cbn [assoc]. destruct (String.eqb_spec k k'); [contradiction | exact IH].
  - cbn [assoc]. destruct (String.eqb k k'); [reflexivity | exact IH].
Qed.

Lemma assoc_without_same (name : string) (fields : list (string * JsVal)) :
  assoc name (without name fields) = None.
Proof.
  induction fields as [|[k' v] rest IH]; [reflexivity|].
  cbn [without List.filter fst]. fold (without name rest).
  destruct (String.eqb_spec name k') as [->|Hk']; cbn [negb]; [exact IH|].
  cbn [assoc]. destruct (String.eqb_spec name k'); [contradiction | exact IH].
Qed.

(** ** The result handler *)

Lemma showError_displays (v : JsVal) (t : string) (s0 s : State) :
  to_text v = Normal t ->
  resultContainer s = resultContainer s0 ->
  resultContainer_innerHTML s = resultContainer_innerHTML s0 ->
  displays_error t s0 (showError v s).
Proof.
  intros Ht Hr Hh. unfold showError. rewrite Ht.
  eexists. split; [reflexivity|]. cbn.
  repeat split; auto using visible_remove, visible_add.
Qed.

Lemma showError_throws (v : JsVal) (e : exn) (s : State) :
  to_text v = Throw e -> showError v s = Threw e (hideLoading s).
Proof. intros Ht. unfold showError. rewrite Ht. reflexivity. Qed.

Lemma hideLoading_idem (s : State) : hideLoading (hideLoading s) = hideLoading s.
Proof.
  destruct s. unfold hideLoading, set_loadingSpinner; cbn. f_equal.
  apply classList_add_idem.
Qed.

(** Past the two tests, the handler assigns the card or throws on the way
    to it. *)
Lemma handler_card_branch (fields : list (string * JsVal)) (s : State) :
  truthy (field "error" fields) = false ->
  truthy (field "success" fields) = true ->
  match result_card (JObj fields) with
  | Normal html => renders_result html s (handleAnalysisResult (JObj fields) s)
  | Throw e => handleAnalysisResult (JObj fields) s = Threw e (hideLoading s)
  end.
Proof.
  intros He Hs. unfold handleAnalysisResult. rewrite !get_object, He, Hs.
  cbn [negb]. destruct (result_card (JObj fields)) as [html|e]; [|reflexivity].
  eexists. split; [reflexivity|]. cbn.
  repeat split; auto using visible_remove, visible_add.
Qed.

(** The handler, case by case, with the text an assignment to
    [textContent] stores. *)
Lemma handler_by_cases (fields : list (string * JsVal)) (s : State) :
  let r := handleAnalysisResult (JObj fields) s in
  let error := field "error" fields in
  let success := field "success" fields in
  let message := field "message" fields in
  if truthy error then
    match to_text error with
    | Normal t => displays_error t s r
    | Throw e => r = Threw e (hideLoading s)
    end
  else if negb (truthy success) then
    if truthy message then
      match to_text message with
      | Normal t => displays_error t s r
      | Throw e => r = Threw e (hideLoading s)
      end
    else displays_error unknown_error s r
  else
    match result_card (JObj fields) with
    | Normal html => renders_result html s r
    | Throw e => r = Threw e (hideLoading s)
    end.
Proof.
  cbv zeta.
  destruct (truthy (field "error" fields)) eqn:He.
  - unfold handleAnalysisResult. rewrite get_object, He.
    destruct (to_text (field "error" fields)) as [t|e] eqn:Ht.
    + apply showError_displays; [exact Ht | reflexivity | reflexivity].
    + rewrite (showError_throws _ _ _ Ht). now rewrite hideLoading_idem.
  - destruct (truthy (field "success" fields)) eqn:Hs; cbn [negb].
    + exact (handler_card_branch fields s He Hs).
    + unfold handleAnalysisResult. rewrite !get_object, He, Hs. cbn [negb].
      destruct (truthy (field "message" fields)) eqn:Hm.
      * destruct (to_text (field "message" fields)) as [t|e] eqn:Ht.
        -- apply showError_displays; [exact Ht | reflexivity | reflexivity].
        -- rewrite (showError_throws _ _ _ Ht). now rewrite hideLoading_idem.
      * apply showError_displays; reflexivity.
Qed.

Lemma to_text_truthy (v : JsVal) : truthy v = true -> to_text v = ToString v.
Proof. destruct v; try reflexivity; discriminate. Qed.

Lemma truthy_string (t : string) : t <> "" -> truthy (JStr t) = true.
Proof.
  intros Hne. cbn [truthy]. destruct (String.eqb_spec t ""); [contradiction|reflexivity].
Qed.

(** C1.  The result handler goes by this precedence, for every parsed
    response object.  A field is present when the script's test of it
    succeeds, that is when it holds a truthy value; a string is present when
    it is not empty.  If [error] is present the banner shows it: exactly
    that string when it is a string, its string form otherwise.  If there is
    no [error] and [success] is falsy, the banner shows [message] in the
    same way when that is present, and the fixed default text when it is not.
    Only otherwise, with no [error] and a truthy [success], is the result
    card rendered.  (A value whose conversion to a string throws makes the
    handler throw at that point.) *)
Theorem handleAnalysisResult_precedence (fields : list (string * JsVal)) (s : State) :
  let r := handleAnalysisResult (JObj fields) s in
  let error := field "error" fields in
  let success := field "success" fields in
  let message := field "message" fields in
  (forall e, error = JStr e -> e <> "" -> displays_error e s r)
  /\ (truthy error = true ->
      match ToString error with
      | Normal t => displays_error t s r
      | Throw x => r = Threw x (hideLoading s)
      end)
  /\ (truthy error = false -> truthy success = false ->
      (forall m, message = JStr m -> m <> "" -> displays_error m s r)
      /\ (truthy message = true ->
          match ToString message with
          | Normal t => displays_error t s r
          | Throw x => r = Threw x (hideLoading s)
          end)
      /\ (truthy message = false ->
          displays_error "An unknown error occurred during face analysis." s r))
  /\ (truthy error = false -> truthy success = true ->
      match result_card (JObj fields) with
      | Normal html => renders_result html s r
      | Throw x => r = Threw x (hideLoading s)
      end).
Proof.
  cbv zeta. pose proof (handler_by_cases fields s) as H. cbv zeta in H.
  split; [|split; [|split]].
  - intros e He Hne. rewrite He in H. rewrite (truthy_string e Hne) in H. exact H.
  - intros Ht. rewrite Ht, (to_text_truthy _ Ht) in H. exact H.
  - intros He Hs. rewrite He, Hs in H. cbn [negb] in H. split; [|split].
    + intros m Hm Hne. rewrite Hm in H. rewrite (truthy_string m Hne) in H. exact H.
    + intros Ht. rewrite Ht, (to_text_truthy _ Ht) in H. exact H.
    + intros Hf. rewrite Hf in H. exact H.
  - intros He Hs. rewrite He, Hs in H. exact H.
Qed.

Lemma handleAnalysisResult_precedence_witness :
  displays_error "no face detected" sample_loading
    (handleAnalysisResult (JObj [("error", JStr "no face detected")]) sample_loading)
  /\ displays_error "An unknown error occurred during face analysis." sample_loading
       (handleAnalysisResult (JObj [("success", JBool false)]) sample_loading).
Proof.
  split.
  - apply (proj1 (handleAnalysisResult_precedence
                    [("error", JStr "no face detected")] sample_loading)
             "no face detected" eq_refl).
    discriminate.
  - apply (proj1 (proj2 (proj2 (handleAnalysisResult_precedence
                                  [("success", JBool false)] sample_loading))));
      reflexivity.
Defined.

(** The two error answers of the specification's examples, on the page
    while it waits for the analysis. *)
Example error_string_is_shown :
  displays_error "no face detected" sample_loading
    (handleAnalysisResult (JObj [("error", JStr "no face detected")]) sample_loading).
Proof. eexists. split; [reflexivity|]. vm_compute. auto 6. Qed.

Example default_text_is_shown :
  displays_error "An unknown error occurred during face analysis." sample_loading
    (handleAnalysisResult (JObj [("success", JBool false)]) sample_loading).
Proof. eexists. split; [reflexivity|]. vm_compute. auto 6. Qed.

Lemma field_without_other (name k : string) (fields : list (string * JsVal)) :
  k <> name -> field k (without name fields) = field k fields.
Proof. intros H. unfold field. now rewrite assoc_without_other. Qed.

Lemma field_without_same (name : string) (fields : list (string * JsVal)) :
  field name (without name fields) = JUndefined.
Proof. unfold field. now rewrite assoc_without_same. Qed.

(** The card reads nothing of [error]. *)
Lemma result_card_without_error (fields : list (string * JsVal)) :
  result_card (JObj (without "error" fields)) = result_card (JObj fields).
Proof.
  unfold result_card, measurement, confidence_percent.
  rewrite !get_object, !field_without_other by discriminate.
  reflexivity.
Qed.

(** C10.  The presence of [error] is tested by truthiness.  For every
    response whose [error] is the empty string, zero, [null] or [false], the
    handler takes the error for absent and goes on to the test of [success]:
    with a falsy [success] the banner shows [message], or the default text
    when there is none, and not the error; with a truthy [success] the card
    is rendered.  It does what it does for the same response without an
    [error] field. *)
Theorem falsy_error_is_absent (fields : list (string * JsVal)) (s : State) :
  In (field "error" fields) [JStr ""; JNum 0%float; JNull; JBool false] ->
  let r := handleAnalysisResult (JObj fields) s in
  let success := field "success" fields in
  let message := field "message" fields in
  (truthy success = false ->
     (forall m, message = JStr m -> m <> "" -> displays_error m s r)
     /\ (truthy message = false ->
         displays_error "An unknown error occurred during face analysis." s r))
  /\ (truthy success = true ->
      match result_card (JObj fields) with
      | Normal html => renders_result html s r
      | Throw x => r = Threw x (hideLoading s)
      end)
  /\ r = handleAnalysisResult (JObj (without "error" fields)) s.
Proof.
  intros Hin. cbv zeta.
  assert (He : truthy (field "error" fields) = false).
  { destruct Hin as [<- | [<- | [<- | [<- | []]]]]; reflexivity. }
  pose proof (handler_by_cases fields s) as H. cbv zeta in H. rewrite He in H.
  split; [|split].
  - intros Hs. rewrite Hs in H. cbn [negb] in H. split.
    + intros m Hm Hne. rewrite Hm in H. rewrite (truthy_string m Hne) in H. exact H.
    + intros Hf. rewrite Hf in H. exact H.
  - intros Hs. rewrite Hs in H. exact H.
  - unfold handleAnalysisResult.
    rewrite !get_object, field_without_same, He.
    rewrite !field_without_other by discriminate.
    rewrite result_card_without_error. reflexivity.
Qed.

Lemma falsy_error_is_absent_witness :
  renders_result
    (card_0 +:+ "data:image/jpeg;base64,AAAA" +:+ card_1 +:+ "OVAL" +:+ card_2
     +:+ "Balanced proportions." +:+ card_3 +:+ "210" +:+ card_4 +:+ "140"
     +:+ card_5 +:+ "150" +:+ card_6 +:+ "120" +:+ card_7 +:+ "0.75" +:+ card_8
     +:+ "87" +:+ card_9)
    sample_loading
    (handleAnalysisResult (JObj (("error", JStr "") :: sample_fields)) sample_loading)
  /\ displays_error "An unknown error occurred during face analysis." sample_loading
       (handleAnalysisResult (JObj [("error", JNum 0%float); ("success", JBool false)])
          sample_loading).
Proof.
  split.
  - refine (proj1 (proj2 (falsy_error_is_absent
                            (("error", JStr "") :: sample_fields) sample_loading _)) _).
    + left. reflexivity.
    + reflexivity.
  - refine (proj2 (proj1 (falsy_error_is_absent
                            [("error", JNum 0%float); ("success", JBool false)]
                            sample_loading _) _) _).
    + right. left. reflexivity.
    + reflexivity.
    + reflexivity.
Defined.

(** ** The result card *)

(** C2.  For every successful response (no [error], [success] truthy) with
    an ASCII string [face_shape], a number [confidence] and substitutions
    that convert, the handler shows the card in the result region.  The card has
    the label in upper case inside its badge, and the confidence as
    [Math.round(confidence * 100)] with a percent sign right after it.  For
    confidence 0.873 and label "oval" these are [87%] and [OVAL]. *)
Theorem success_card_label_and_confidence
    (fields : list (string * JsVal)) (s : State) (shape : string) (c : float)
    (image description height top middle bottom ratio : string) :
  truthy (field "error" fields) = false ->
  truthy (field "success" fields) = true ->
  field "face_shape" fields = JStr shape ->
  all_chars is_ascii shape = true ->
  field "confidence" fields = JNum c ->
  ToString (field "image_with_landmarks" fields) = Normal image ->
  ToString (field "description" fields) = Normal description ->
  measurement (JObj fields) "face_height" = Normal height ->
  measurement (JObj fields) "face_width_top" = Normal top ->
  measurement (JObj fields) "face_width_middle" = Normal middle ->
  measurement (JObj fields) "face_width_bottom" = Normal bottom ->
  measurement (JObj fields) "width_to_height_ratio" = Normal ratio ->
  let percent := NumberToString (Math_round (PrimFloat.mul c 100%float)) in
  renders_result
    (card_0 +:+ image +:+ card_1 +:+ toUpperCase shape +:+ card_2 +:+ description
     +:+ card_3 +:+ height +:+ card_4 +:+ top +:+ card_5 +:+ middle
     +:+ card_6 +:+ bottom +:+ card_7 +:+ ratio +:+ card_8 +:+ percent
     +:+ card_9)
    s (handleAnalysisResult (JObj fields) s)
  /\ card_9 = String "%" (drop_str 1 card_9)
  /\ (exists before, card_1 = before +:+ markup "<span class='badge bg-primary'>")
  /\ toUpperCase "oval" = "OVAL"
  /\ NumberToString (Math_round (PrimFloat.mul 0x1.bef9db22d0e56p-1%float 100%float))
     = "87".
Proof.
  intros He Hs Hshape _ Hc Himg Hdesc Hh Ht Hm Hb Hr percent.
  split; [|split; [|split; [|split]]].
  - pose proof (handler_card_branch fields s He Hs) as H.

    assert (Hcard : result_card (JObj fields) = Normal
      (card_0 +:+ image +:+ card_1 +:+ toUpperCase shape +:+ card_2 +:+ description
       +:+ card_3 +:+ height +:+ card_4 +:+ top +:+ card_5 +:+ middle
       +:+ card_6 +:+ bottom +:+ card_7 +:+ ratio +:+ card_8 +:+ percent
       +:+ card_9)).
    { unfold result_card, confidence_percent.
      rewrite Hh, Ht, Hm, Hb, Hr, !get_object, Hshape, Hc.
      cbn [mbind completion_bind]. rewrite Himg, Hdesc. reflexivity. }
    rewrite Hcard in H. exact H.
  - vm_compute. reflexivity.
  - eexists (take_str 200 card_1). vm_compute. reflexivity.
  - reflexivity.
  - vm_compute. reflexivity.
Qed.

Lemma success_card_witness :
  renders_result
    (card_0 +:+ "data:image/jpeg;base64,AAAA" +:+ card_1 +:+ "OVAL" +:+ card_2
     +:+ "Balanced proportions." +:+ card_3 +:+ "210" +:+ card_4 +:+ "140"
     +:+ card_5 +:+ "150" +:+ card_6 +:+ "120" +:+ card_7 +:+ "0.75" +:+ card_8
     +:+ "87" +:+ card_9)
    sample_page (handleAnalysisResult sample_success sample_page).
Proof.
  refine (proj1 (success_card_label_and_confidence sample_fields sample_page
            "oval" 0x1.bef9db22d0e56p-1%float "data:image/jpeg;base64,AAAA"
            "Balanced proportions." "210" "140" "150" "120" "0.75"
            _ _ _ _ _ _ _ _ _ _ _ _)); vm_compute; reflexivity.
Defined.


(** Whatever the conversions throw is a [TypeError]. *)
Lemma ToString_throws (v : JsVal) (e : exn) :
  ToString v = Throw e -> exists what, e = TypeError what.
Proof.
  revert e. induction v as [| |b|x|s|items IH|fields _] using JsVal_nested_ind;
    intros e; cbn [ToString]; try discriminate.
  - match goal with
    | |- match ?each items with _ => _ end = _ -> _ =>
        assert (Hall : forall e', each items = Throw e' -> exists what, e' = TypeError what)
    end.
    { induction IH as [|x rest Hx _ IHrest]; intros e'; [discriminate|].
      destruct (match x with JUndefined | JNull => Normal "" | _ => ToString x end)
        as [sx|ex] eqn:Ex.
      - match goal with
        | |- match ?j with _ => _ end = _ -> _ => destruct j as [ss|e2] eqn:Hj
        end; [discriminate|].
        intros [= <-]. exact (IHrest _ eq_refl).
      - intros [= <-]. destruct x; try discriminate; exact (Hx _ Ex). }
    match goal with
    | |- match ?c with _ => _ end = _ -> _ => destruct c as [ss|e2] eqn:Hc
    end; [discriminate|].
    intros [= <-]. exact (Hall _ eq_refl).
  - destruct (has_key "toString" fields); [|discriminate].
    intros [= <-]. eauto.
Qed.

Lemma get_throws (v : JsVal) (name : string) (e : exn) :
  get v name = Throw e -> exists what, e = TypeError what.
Proof.
  destruct v; cbn [get]; try discriminate; try (intros [= <-]; eauto).
  destruct (assoc name fields); discriminate.
Qed.

Lemma ToNumber_throws (v : JsVal) (e : exn) :
  ToNumber v = Throw e -> exists what, e = TypeError what.
Proof.
  destruct v; cbn [ToNumber]; try discriminate;
    (destruct (ToString _) eqn:Hs; cbn; [discriminate|]);
    intros [= <-]; exact (ToString_throws _ _ Hs).
Qed.

Lemma call_toUpperCase_throws (v : JsVal) (e : exn) :
  call_toUpperCase v = Throw e -> exists what, e = TypeError what.
Proof. destruct v; cbn; try discriminate; intros [= <-]; eauto. Qed.

Lemma bind_normal {A B : Type} (c : completion A) (k : A -> completion B) (b : B) :
  mbind k c = Normal b -> exists a, c = Normal a /\ k a = Normal b.
Proof. destruct c as [a|e]; cbn; [eauto | discriminate]. Qed.

Lemma bind_throw {A B : Type} (c : completion A) (k : A -> completion B) (e : exn) :
  mbind k c = Throw e -> c = Throw e \/ exists a, c = Normal a /\ k a = Throw e.
Proof. destruct c as [a|e']; cbn; [eauto | intros [= <-]; auto]. Qed.

Ltac throw_cases H :=
  repeat (apply bind_throw in H as [H | (? & _ & H)]);
  try discriminate H;
  eauto using ToString_throws, get_throws, ToNumber_throws, call_toUpperCase_throws.

Lemma result_card_throws (data : JsVal) (e : exn) :
  result_card data = Throw e -> exists what, e = TypeError what.
Proof.
  unfold result_card, measurement, confidence_percent. intros H.
  throw_cases H.
Qed.

(** A card was produced only if [face_shape] is a string and
    [measurements] can be read from. *)
Lemma result_card_needs_fields (fields : list (string * JsVal)) (html : string) :
  result_card (JObj fields) = Normal html ->
  (exists shape, field "face_shape" fields = JStr shape)
  /\ field "measurements" fields <> JUndefined
  /\ field "measurements" fields <> JNull.
Proof.
  unfold result_card. intros H.
  apply bind_normal in H as (image & _ & H).
  apply bind_normal in H as (shape & Hshape & H).
  apply bind_normal in H as (description & _ & H).
  apply bind_normal in H as (height & Hheight & _).
  rewrite get_object in Hshape. cbn [mbind completion_bind] in Hshape.
  unfold measurement in Hheight. rewrite get_object in Hheight.
  cbn [mbind completion_bind] in Hheight.
  split; [|split].
  - destruct (field "face_shape" fields); try discriminate Hshape. eauto.
  - intros Hm. rewrite Hm in Hheight. discriminate Hheight.
  - intros Hm. rewrite Hm in Hheight. discriminate Hheight.
Qed.

(** C9.  On the success path (no [error], [success] truthy) the handler
    reads [face_shape] and [measurements] without a test.  For a response
    without [face_shape], or without [measurements], it throws a
    [TypeError] after hiding the spinner, and shows neither the result
    region nor the error banner.  The other way round, when it did show a
    card, [face_shape] was a string and [measurements] was neither
    [undefined] nor [null]. *)
Theorem success_path_needs_fields (fields : list (string * JsVal)) (s : State) :
  truthy (field "error" fields) = false ->
  truthy (field "success" fields) = true ->
  (assoc "face_shape" fields = None \/ assoc "measurements" fields = None ->
   throws_after_hideLoading s (handleAnalysisResult (JObj fields) s))
  /\ (forall html,
        renders_result html s (handleAnalysisResult (JObj fields) s) ->
        (exists shape, field "face_shape" fields = JStr shape)
        /\ field "measurements" fields <> JUndefined
        /\ field "measurements" fields <> JNull).
Proof.
  intros He Hs. pose proof (handler_card_branch fields s He Hs) as Hcard.
  destruct (result_card (JObj fields)) as [html|e] eqn:Hr.
  - pose proof (result_card_needs_fields fields html Hr) as ((shape & Hshape) & Hm1 & Hm2).
    split.
    + unfold field in Hshape, Hm1. intros [Hnone | Hnone]; rewrite Hnone in *.
      * discriminate Hshape.
      * contradiction.
    + intros _ _. eauto.
  - destruct (result_card_throws _ _ Hr) as (what & ->). split.
    + intros _. exists what. exact Hcard.
    + intros html (s' & Hdone & _). rewrite Hcard in Hdone. discriminate Hdone.
Qed.

Lemma success_path_needs_fields_witness :
  throws_after_hideLoading sample_page
    (handleAnalysisResult (JObj [("success", JBool true)]) sample_page).
Proof.
  exact (proj1 (success_path_needs_fields [("success", JBool true)] sample_page
                  eq_refl eq_refl) (or_introl eq_refl)).
Defined.

(** ** The upload listener *)

Lemma image_pattern_prefix (type : string) :
  match_here image_pattern type = starts_with "image" type.
Proof.
  unfold image_pattern. cbn [match_here atom_matches starts_with].
  do 5 (destruct type as [|? type]; [now rewrite ?andb_false_r|]; f_equal).
  destruct type; reflexivity.
Qed.

Lemma image_pattern_contains (type : string) :
  regex_search image_pattern type = contains "image" type.
Proof.
  induction type as [|c rest IH]; [reflexivity|].
  cbn [regex_search contains]. now rewrite IH, image_pattern_prefix.
Qed.

(** C3.  For every selected file whose declared type does not match the
    image pattern, the upload listener shows the validation message in the
    error banner and returns: no request is sent, none becomes pending, and
    the spinner is hidden. *)
Theorem upload_rejects_other_types (file : File) (others : list File) (s : State) :
  regex_search image_pattern (file_type file) = false ->
  displays_error "Please select an image file (jpg, png, etc.)" s
    (imageUpload_change (file :: others) s)
  /\ requests (state_of (imageUpload_change (file :: others) s)) = requests s
  /\ pending_fetches (state_of (imageUpload_change (file :: others) s))
     = pending_fetches s.
Proof.
  intros Hno. unfold imageUpload_change. rewrite Hno. cbn [negb].
  split; [apply showError_displays; reflexivity|].
  split; reflexivity.
Qed.

Lemma upload_rejects_other_types_witness :
  displays_error "Please select an image file (jpg, png, etc.)" sample_page
    (imageUpload_change [sample_file "application/pdf"] sample_page).
Proof.
  exact (proj1 (upload_rejects_other_types (sample_file "application/pdf") []
                  sample_page eq_refl)).
Defined.

(** ** Requests *)

Lemma hex_char_unreserved (d : nat) :
  (d < 16)%nat -> is_uri_unreserved (hex_char d) = true.
Proof.
  intros H. do 16 (destruct d as [|d]; [reflexivity|]). lia.
Qed.

(** What [encodeURIComponent] returns is made of unreserved characters and
    percent signs. *)
Lemma encodeURIComponent_chars (s : string) :
  all_chars (fun c => is_uri_unreserved c || Ascii.eqb c "%")
    (encodeURIComponent s) = true.
Proof.
  induction s as [|c rest IH]; [reflexivity|].
  cbn [encodeURIComponent]. destruct (is_uri_unreserved c) eqn:Hc.
  - cbn [all_chars]. now rewrite Hc, IH.
  - cbn [all_chars]. rewrite IH.
    rewrite !hex_char_unreserved; [reflexivity| |].
    + apply Nat.mod_upper_bound. discriminate.
    + apply Nat.Div0.div_lt_upper_bound.
      pose proof (nat_ascii_bounded c). lia.
Qed.

(** C8.  The encoding on the wire goes by the source.  An uploaded file
    that passes the type check is sent as form data with the file itself in
    the field [image]; a captured photo is sent as a URL-encoded string body,
    [image_data=] and the percent-encoded data URL, with the matching
    content type.  Both are a POST to [/analyze]. *)
Theorem wire_encoding_by_source
    (file : File) (others : list File) (s : State) (button : Button) :
  (regex_search image_pattern (file_type file) = true ->
   requests (state_of (imageUpload_change (file :: others) s))
   = {| req_url := "/analyze"; req_method := "POST"; req_headers := [];
        req_body := FormDataBody [("image", FileEntry file)] |} :: requests s)
  /\ (isCameraActive s = true -> captureButton s = Some button ->
      requests (state_of (capturePhoto_click s))
      = {| req_url := "/analyze"; req_method := "POST";
           req_headers := [("Content-Type", "application/x-www-form-urlencoded")];
           req_body := StringBody
             ("image_data=" +:+ encodeURIComponent (fst (capturePhoto s))) |}
        :: requests s)
  /\ all_chars (fun c => is_uri_unreserved c || Ascii.eqb c "%")
       (encodeURIComponent (fst (capturePhoto s))) = true.
Proof.
  split; [|split].
  - intros Hm. unfold imageUpload_change. rewrite Hm. reflexivity.
  - intros Ha Hb. unfold capturePhoto_click. rewrite Ha.
    unfold capturePhoto, stopCamera, relabel. cbn.
    destruct (stream s); cbn; rewrite Hb; reflexivity.
  - apply encodeURIComponent_chars.
Qed.

Lemma wire_encoding_by_source_witness :
  requests (state_of (imageUpload_change [sample_file "image/png"] sample_camera))
  = [{| req_url := "/analyze"; req_method := "POST"; req_headers := [];
        req_body := FormDataBody [("image", FileEntry (sample_file "image/png"))] |}]
  /\ requests (state_of (capturePhoto_click sample_camera))
     = [{| req_url := "/analyze"; req_method := "POST";
           req_headers := [("Content-Type", "application/x-www-form-urlencoded")];
           req_body := StringBody
             "image_data=data%3Aimage%2Fjpeg%3Bbase64%2C%2F9j%2F4AAQ" |}].
Proof.
  pose proof (wire_encoding_by_source (sample_file "image/png") [] sample_camera
                {| btn_text := "Cancel";
                   btn_classes :=
                     classList_add "btn-danger"
                       (classList_remove "btn-primary" {[ "btn"; "btn-primary" ]}) |})
    as (Hupload & Hcamera & _).
  split.
  - exact (Hupload eq_refl).
  - exact (Hcamera eq_refl eq_refl).
Defined.

(** ** The camera *)

Lemma relabel_state (text add remove : string) (s : State) :
  state_of (relabel text add remove s)
  = match captureButton s with
    | Some b =>
        set_captureButton
          (Some {| btn_text := text;
                   btn_classes :=
                     classList_add add (classList_remove remove (btn_classes b)) |}) s
    | None => s
    end.
Proof. unfold relabel. destruct (captureButton s); reflexivity. Qed.

Lemma relabel_done (text add remove : string) (s : State) :
  is_Some (captureButton s) ->
  relabel text add remove s = Done (state_of (relabel text add remove s)).
Proof. intros [b Hb]. unfold relabel. rewrite Hb. reflexivity. Qed.

Lemma stopCamera_state_idem (s : State) :
  state_of (stopCamera (state_of (stopCamera s))) = state_of (stopCamera s).
Proof.
  unfold stopCamera. rewrite !relabel_state.
  destruct s as [a st cb p1 p2 cc vs cw ch rc rh ls em et sup vf sts pc pf rq sc co].
  destruct st as [h|], cb as [[text classes]|]; cbn -[classList_add classList_remove];
    unfold set_captureButton, set_cameraContainer;
    cbn -[classList_add classList_remove];
    rewrite ?classList_add_idem, ?classList_swap_idem; reflexivity.
Qed.

Lemma stopCamera_done (s : State) :
  is_Some (captureButton s) -> stopCamera s = Done (state_of (stopCamera s)).
Proof.
  intros Hb. unfold stopCamera. apply relabel_done.
  destruct (stream s); exact Hb.
Qed.

Lemma stopCamera_clears (s : State) :
  stream (state_of (stopCamera s)) = None
  /\ isCameraActive (state_of (stopCamera s)) = false
  /\ visible (cameraContainer (state_of (stopCamera s))) = false.
Proof.
  unfold stopCamera. rewrite relabel_state.
  destruct s as [a st cb p1 p2 cc vs cw ch rc rh ls em et sup vf sts pc pf rq sc co].
  destruct st, cb; cbn -[classList_add]; auto using visible_add.
Qed.

Lemma stopCamera_state (s : State) :
  stopCamera s
  = match captureButton s with
    | Some _ => Done (state_of (stopCamera s))
    | None =>
        Threw (TypeError "Cannot set properties of null (setting 'textContent')")
          (state_of (stopCamera s))
    end.
Proof.
  unfold stopCamera, relabel.
  destruct s as [a st cb p1 p2 cc vs cw ch rc rh ls em et sup vf sts pc pf rq sc co].
  destruct st, cb; reflexivity.
Qed.

Lemma stopCamera_button (s : State) :
  is_Some (captureButton (state_of (stopCamera s))) <-> is_Some (captureButton s).
Proof.
  unfold stopCamera. rewrite relabel_state.
  destruct s as [a st cb p1 p2 cc vs cw ch rc rh ls em et sup vf sts pc pf rq sc co].
  destruct st, cb; cbn; split; intros [x Hx]; try discriminate Hx; eauto.
Qed.

(** Releasing the camera twice.  From every state, with a stream or
    without one, a second [stopCamera] ends as the first one did and leaves
    the state the first one left; after it the stream variable is cleared,
    the flag is false and the camera region is hidden.  On a page that has
    the capture button no call throws. *)
Theorem stopCamera_idempotent (s : State) :
  let s1 := state_of (stopCamera s) in
  match stopCamera s with
  | Done _ => stopCamera s1 = Done s1
  | Threw e _ => stopCamera s1 = Threw e s1
  end
  /\ stream s1 = None
  /\ isCameraActive s1 = false
  /\ visible (cameraContainer s1) = false
  /\ (is_Some (captureButton s) -> stopCamera s = Done s1 /\ stopCamera s1 = Done s1).
Proof.
  cbv zeta.
  assert (Hsecond : stopCamera (state_of (stopCamera s))
                    = match captureButton s with
                      | Some _ => Done (state_of (stopCamera s))
                      | None =>
                          Threw (TypeError "Cannot set properties of null (setting 'textContent')")
                            (state_of (stopCamera s))
                      end).
  { rewrite (stopCamera_state (state_of (stopCamera s))), stopCamera_state_idem.
    pose proof (stopCamera_button s) as Hb.
    destruct (captureButton (state_of (stopCamera s))) as [b1|],
             (captureButton s) as [b|]; try reflexivity.
    - destruct (proj1 Hb) as [? [=]]; eauto.
    - destruct (proj2 Hb) as [? [=]]; eauto. }
  split.
  - rewrite Hsecond. pose proof (stopCamera_state s) as Hfirst.
    destruct (captureButton s); rewrite Hfirst; reflexivity.
  - destruct (stopCamera_clears s) as (Hstream & Hflag & Hcam).
    do 3 (split; [assumption|]).
    intros [b Hb]. rewrite Hsecond. pose proof (stopCamera_state s) as Hfirst.
    rewrite Hb in *. split; [exact Hfirst | reflexivity].
Qed.

Lemma stopCamera_idempotent_witness :
  stopCamera sample_camera = Done (state_of (stopCamera sample_camera))
  /\ stopCamera (state_of (stopCamera sample_camera))
     = Done (state_of (stopCamera sample_camera)).
Proof.
  apply (stopCamera_idempotent sample_camera). vm_compute. eauto.
Defined.

(** Without the capture button the assignment to its text throws, as it
    does after [startCamera]; the listeners alone are guarded. *)
Lemma stopCamera_without_button (s : State) :
  captureButton s = None -> exists what s', stopCamera s = Threw (TypeError what) s'.
Proof.
  intros H. unfold stopCamera, relabel.
  destruct (stream s); cbn; rewrite H; eauto.
Qed.

(** C7.  Releasing the camera does raise an error on a page without the
    capture button, a page the script allows for when it adds its listeners
    under [if (captureButton)].  The page is idle and has the cancel button;
    its listener calls [stopCamera], which hides the camera region and then
    throws at the assignment to the text of the missing button, and throws
    again at every further call. *)
Lemma release_throws_without_capture_button :
  let page := set_captureButton None sample_page in
  idle page = true
  /\ enabled CancelClicked page = true
  /\ enabled CaptureClicked page = false
  /\ exists what s',
       cancelCapture_click page = Threw (TypeError what) s'
       /\ stopCamera s' = Threw (TypeError what) s'
       /\ visible (cameraContainer s') = false.
Proof.
  cbv zeta. split; [reflexivity|]. split; [reflexivity|]. split; [reflexivity|].
  do 2 eexists. split; [vm_compute; reflexivity|].
  split; vm_compute; reflexivity.
Qed.

(** C6, as the script has it.  [capturePhoto] has no way to fail.  When the
    video reports a zero width or height the canvas gets no pixels and the
    photo is, every time, the data URL of an empty canvas; the capture
    listener then releases the camera, shows the spinner and sends that
    photo like any other. *)
Theorem capture_without_frame (s : State) (button : Button) :
  videoWidth s = 0%N \/ videoHeight s = 0%N ->
  fst (capturePhoto s) = "data:,"
  /\ (isCameraActive s = true -> captureButton s = Some button ->
      exists s', capturePhoto_click s = Done s'
        /\ requests s'
           = {| req_url := "/analyze"; req_method := "POST";
                req_headers := [("Content-Type", "application/x-www-form-urlencoded")];
                req_body := StringBody "image_data=data%3A%2C" |} :: requests s
        /\ visible (loadingSpinner s') = true
        /\ isCameraActive s' = false).
Proof.
  intros Hzero.
  assert (Hphoto : fst (capturePhoto s) = "data:,").
  { unfold capturePhoto, toDataURL. cbn [fst canvas_width canvas_height
      set_canvas_width set_canvas_height].
    change (videoHeight (set_canvas_width (videoWidth s) s)) with (videoHeight s).
    destruct Hzero as [-> | ->]; [reflexivity | now rewrite orb_true_r]. }
  split; [exact Hphoto|].
  intros Ha Hb. unfold capturePhoto_click. rewrite Ha.
  destruct (capturePhoto s) as [photo s0] eqn:Hc. cbn [fst] in Hphoto. subst photo.
  assert (Hs0 : s0 = set_canvas_height (videoHeight s) (set_canvas_width (videoWidth s) s)).
  { unfold capturePhoto in Hc. injection Hc as _ <-. reflexivity. }
  assert (Hb0 : is_Some (captureButton s0)) by (subst s0; cbn; rewrite Hb; eauto).
  rewrite (stopCamera_done s0 Hb0). cbn [and_then].
  eexists. split; [reflexivity|].
  split; [|split].
  - unfold stopCamera. rewrite relabel_state. subst s0.
    destruct s as [a st cb p1 p2 cc vs cw ch rc rh ls em et sup vf sts pc pf rq sc co].
    cbn in Hb. subst cb. destruct st; reflexivity.
  - cbn -[classList_remove]. apply visible_remove.
  - unfold stopCamera. rewrite relabel_state. subst s0.
    destruct s as [a st cb p1 p2 cc vs cw ch rc rh ls em et sup vf sts pc pf rq sc co].
    cbn in Hb. subst cb. destruct st; reflexivity.
Qed.

Lemma capture_without_frame_witness :
  fst (capturePhoto sample_camera_no_frame) = "data:,".
Proof.
  refine (proj1 (capture_without_frame sample_camera_no_frame
                   {| btn_text := "Cancel"; btn_classes := ∅ |} _)).
  left. reflexivity.
Defined.

(** C6, as the specification has it, fails: the camera was granted and the
    video has no frame yet, the width and the height are zero, and the
    capture does not fail.  It returns a photo, and the listener ends
    normally with that photo sent. *)
Lemma no_frame_photo_is_sent :
  isCameraActive sample_camera_no_frame = true
  /\ videoWidth sample_camera_no_frame = 0%N
  /\ videoHeight sample_camera_no_frame = 0%N
  /\ fst (capturePhoto sample_camera_no_frame) = "data:,"
  /\ exists s', capturePhoto_click sample_camera_no_frame = Done s'
       /\ requests s'
          = [{| req_url := "/analyze"; req_method := "POST";
                req_headers := [("Content-Type", "application/x-www-form-urlencoded")];
                req_body := StringBody "image_data=data%3A%2C" |}]
       /\ pending_fetches s' = 1%nat.
Proof.
  repeat split; try reflexivity.
  eexists. split; [vm_compute; reflexivity|]. split; reflexivity.
Qed.

(** ** Settlement *)

(** What [showError] does to the regions and to the rest of the page. *)
Lemma showError_outcome (v : JsVal) (s : State) :
  match showError v s with
  | Done s' =>
      visible (errorMessage s') = true
      /\ visible (loadingSpinner s') = false
      /\ resultContainer s' = resultContainer s
      /\ resultContainer_innerHTML s' = resultContainer_innerHTML s
      /\ cameraContainer s' = cameraContainer s
      /\ requests s' = requests s
      /\ pending_fetches s' = pending_fetches s
      /\ console s' = console s
      /\ (forall t, to_text v = Normal t -> errorMessage_textContent s' = t)
  | Threw _ s' => s' = hideLoading s
  end.
Proof.
  unfold showError. destruct (to_text v) as [t|e]; [|reflexivity].
  cbn -[classList_add classList_remove].
  repeat split; auto using visible_remove, visible_add.
  now intros t' [= <-].
Qed.

(** What the handler does to them: the banner or the card, or a throw
    right after [hideLoading]. *)
Lemma handler_outcome (data : JsVal) (s : State) :
  match handleAnalysisResult data s with
  | Done s' =>
      visible (loadingSpinner s') = false
      /\ cameraContainer s' = cameraContainer s
      /\ requests s' = requests s
      /\ pending_fetches s' = pending_fetches s
      /\ console s' = console s
      /\ (visible (errorMessage s') = true /\ resultContainer s' = resultContainer s
          \/ visible (resultContainer s') = true /\ errorMessage s' = errorMessage s)
  | Threw _ s' => s' = hideLoading s
  end.
Proof.
  unfold handleAnalysisResult.
  assert (Hshow : forall v,
    match showError v (hideLoading s) with
    | Done s' =>
        visible (loadingSpinner s') = false
        /\ cameraContainer s' = cameraContainer s
        /\ requests s' = requests s
        /\ pending_fetches s' = pending_fetches s
        /\ console s' = console s
        /\ (visible (errorMessage s') = true /\ resultContainer s' = resultContainer s
            \/ visible (resultContainer s') = true /\ errorMessage s' = errorMessage s)
    | Threw _ s' => s' = hideLoading s
    end).
  { intros v. pose proof (showError_outcome v (hideLoading s)) as H.
    destruct (showError v (hideLoading s)) as [s'|e s'].
    - destruct H as (He & Hl & Hr & _ & Hc & Hq & Hp & Hco & _).
      repeat split; auto.
    - now rewrite H, hideLoading_idem. }
  destruct (get data "error") as [error|e]; [|reflexivity].
  destruct (truthy error); [apply Hshow|].
  destruct (get data "success") as [success|e]; [|reflexivity].
  destruct (truthy success); cbn [negb].
  - destruct (result_card data) as [html|e]; [|reflexivity].
    cbn -[classList_add classList_remove].
    repeat split; auto using visible_add. right. auto using visible_remove.
  - destruct (get data "message") as [message|e]; [|reflexivity]. apply Hshow.
Qed.

Lemma fetch_catch_banner (e : exn) (s : State) :
  transport_banner e s (fetch_catch e s)
  /\ cameraContainer (fetch_catch e s) = cameraContainer s
  /\ requests (fetch_catch e s) = requests s
  /\ pending_fetches (fetch_catch e s) = pending_fetches s.
Proof.
  unfold fetch_catch, transport_banner, console_error, showError.
  cbn -[classList_add classList_remove].
  repeat split; auto using visible_remove, visible_add.
Qed.

(** C5, as the script has it.  When the network fails, when the body is
    not JSON, or when the result handler throws, the [catch] of the chain
    logs the error it caught, whatever that is, and shows the fixed message
    in the error banner.  No settlement sends a request: nothing is retried.
    The status of the response is never looked at: two responses with the
    same body settle alike whatever their status, so a non-2xx response with
    a JSON body is handled like any parsed response. *)
Theorem transport_failures (s : State) :
  let s0 := set_pending_fetches (Nat.pred (pending_fetches s)) s in
  (forall e, transport_banner e s0 (fetch_settled (NetworkFailure e) s))
  /\ (forall status e,
       transport_banner e s0
         (fetch_settled (Responded {| resp_status := status; resp_json := Throw e |}) s))
  /\ (forall status data,
       match handleAnalysisResult data s0 with
       | Threw e _ =>
           transport_banner e s0
             (fetch_settled
                (Responded {| resp_status := status; resp_json := Normal data |}) s)
       | Done s' =>
           fetch_settled
             (Responded {| resp_status := status; resp_json := Normal data |}) s = s'
       end)
  /\ (forall o, requests (fetch_settled o s) = requests s
                /\ pending_fetches (fetch_settled o s) = Nat.pred (pending_fetches s))
  /\ (forall status status' body,
       fetch_settled (Responded {| resp_status := status; resp_json := body |}) s
       = fetch_settled (Responded {| resp_status := status'; resp_json := body |}) s).
Proof.
  cbv zeta. set (s0 := set_pending_fetches (Nat.pred (pending_fetches s)) s).
  split; [|split; [|split; [|split]]].
  - intros e. apply fetch_catch_banner.
  - intros status e. apply fetch_catch_banner.
  - intros status data. unfold fetch_settled. fold s0. cbn [resp_json].
    pose proof (handler_outcome data s0) as H.
    destruct (handleAnalysisResult data s0) as [s'|e s']; [reflexivity|].
    subst s'. destruct (fetch_catch_banner e (hideLoading s0))
      as ((Ht & Hv & Hl & Hr & Hc) & _).
    repeat split; assumption.
  - intros o. unfold fetch_settled. fold s0.
    change (requests s) with (requests s0).
    change (Nat.pred (pending_fetches s)) with (pending_fetches s0).
    assert (Hcatch : forall e s1,
              requests (fetch_catch e s1) = requests s1
              /\ pending_fetches (fetch_catch e s1) = pending_fetches s1)
      by (intros; apply fetch_catch_banner).
    destruct o as [e0|[status [data|e0]]]; cbn [resp_json];
      [apply Hcatch | | apply Hcatch].
    pose proof (handler_outcome data s0) as H.
    destruct (handleAnalysisResult data s0) as [s'|e s'].
    + destruct H as (_ & _ & -> & -> & _). split; reflexivity.
    + subst s'. apply (Hcatch e (hideLoading s0)).
  - reflexivity.
Qed.

(** C5, as the specification has it, fails: the server answers 500 with a
    JSON body, and the page shows the result card; the banner stays hidden
    and nothing is logged. *)
Lemma status_500_is_rendered :
  let s' := fetch_settled
              (Responded {| resp_status := 500; resp_json := Normal sample_success |})
              sample_loading in
  visible (loadingSpinner sample_loading) = true
  /\ visible (errorMessage s') = false
  /\ errorMessage_textContent s' = ""
  /\ visible (resultContainer s') = true
  /\ console s' = [].
Proof. vm_compute. repeat split; reflexivity. Qed.

(** ** The regions *)

Lemma camera_catch_outcome (e : exn) (s : State) :
  let s' := camera_catch e s in
  visible (errorMessage s') = true
  /\ visible (loadingSpinner s') = false
  /\ resultContainer s' = resultContainer s
  /\ cameraContainer s' = cameraContainer s.
Proof.
  cbv zeta. unfold camera_catch, console_error, showError.
  cbn -[classList_add classList_remove].
  repeat split; auto using visible_remove, visible_add.
Qed.

(** C4, as the script has it.  When a submission settles (a card, an error
    of the server, or a failure on the way) the spinner is hidden and the
    result region or the error banner is shown; it is exactly one of them
    when both were hidden just before, which is how the submission left
    them: the upload and capture listeners hide both, and the capture
    listener hides the camera too.  The settlement does not touch the
    camera region.  When the camera cannot be acquired the banner is shown
    and the spinner hidden, and the result and camera regions stay as they
    were. *)
Theorem regions_after_settlement (s : State) :
  (forall o,
     let s' := fetch_settled o s in
     visible (loadingSpinner s') = false
     /\ visible (resultContainer s') || visible (errorMessage s') = true
     /\ cameraContainer s' = cameraContainer s
     /\ (visible (resultContainer s) = false -> visible (errorMessage s) = false ->
         xorb (visible (resultContainer s')) (visible (errorMessage s')) = true))
  /\ (forall e,
       let s' := camera_settled (inr e) s in
       visible (errorMessage s') = true
       /\ visible (loadingSpinner s') = false
       /\ resultContainer s' = resultContainer s
       /\ cameraContainer s' = cameraContainer s)
  /\ (isCameraActive s = false -> camera_supported s = false ->
      let s' := state_of (captureButton_click s) in
      visible (errorMessage s') = true
      /\ visible (loadingSpinner s') = false
      /\ resultContainer s' = resultContainer s
      /\ cameraContainer s' = cameraContainer s)
  /\ (forall file others,
       regex_search image_pattern (file_type file) = true ->
       let s' := state_of (imageUpload_change (file :: others) s) in
       visible (resultContainer s') = false
       /\ visible (errorMessage s') = false
       /\ visible (loadingSpinner s') = true
       /\ cameraContainer s' = cameraContainer s)
  /\ (isCameraActive s = true -> is_Some (captureButton s) ->
      let s' := state_of (capturePhoto_click s) in
      visible (resultContainer s') = false
      /\ visible (errorMessage s') = false
      /\ visible (loadingSpinner s') = true
      /\ visible (cameraContainer s') = false).
Proof.
  split; [|split; [|split; [|split]]].
  - intros o. cbv zeta.
    set (s0 := set_pending_fetches (Nat.pred (pending_fetches s)) s).
    assert (Hcatch : forall e s1,
      resultContainer s1 = resultContainer s -> cameraContainer s1 = cameraContainer s ->
      let s' := fetch_catch e s1 in
      visible (loadingSpinner s') = false
      /\ visible (resultContainer s') || visible (errorMessage s') = true
      /\ cameraContainer s' = cameraContainer s
      /\ (visible (resultContainer s) = false -> visible (errorMessage s) = false ->
          xorb (visible (resultContainer s')) (visible (errorMessage s')) = true)).
    { intros e s1 Hr1 Hc1. cbv zeta.
      destruct (fetch_catch_banner e s1) as ((_ & Hv & Hl & Hr & _) & Hc & _).
      rewrite Hv, Hl, Hr, Hc, Hr1, Hc1, orb_true_r.
      do 3 (split; [reflexivity|]). now intros ->. }
    unfold fetch_settled. fold s0.
    destruct o as [e0|[status [data|e0]]]; cbn [resp_json];
      [apply Hcatch; reflexivity| |apply Hcatch; reflexivity].
    pose proof (handler_outcome data s0) as H.
    change (resultContainer s0) with (resultContainer s) in H.
    change (errorMessage s0) with (errorMessage s) in H.
    change (cameraContainer s0) with (cameraContainer s) in H.
    destruct (handleAnalysisResult data s0) as [s'|e s'].
    + destruct H as (Hl & Hc & _ & _ & _ & [[Hv Hr] | [Hv He]]).
      * rewrite Hl, Hc, Hv, Hr, orb_true_r.
        do 3 (split; [reflexivity|]). now intros ->.
      * rewrite Hl, Hc, Hv, He.
        do 3 (split; [reflexivity|]). now intros _ ->.
    + subst s'. apply Hcatch; reflexivity.
  - intros e. cbv zeta. unfold camera_settled.
    apply (camera_catch_outcome e (set_pending_camera (Nat.pred (pending_camera s)) s)).
  - intros Ha Hs. cbv zeta. unfold captureButton_click, startCamera.
    rewrite Ha, Hs.
    pose proof (showError_outcome (JStr unsupported_message) s) as H.
    destruct (showError _ s) as [s'|e s'] eqn:Hshow; [|discriminate Hshow].
    cbn [state_of]. destruct H as (Hv & Hl & Hr & _ & Hc & _). auto.
  - intros file others Hm. cbv zeta. unfold imageUpload_change. rewrite Hm.
    cbn -[classList_add classList_remove].
    auto using visible_add, visible_remove.
  - intros Ha Hb. cbv zeta. unfold capturePhoto_click. rewrite Ha.
    destruct (capturePhoto s) as [photo s0] eqn:Hc.
    assert (Hs0 : s0 = set_canvas_height (videoHeight s) (set_canvas_width (videoWidth s) s)).
    { unfold capturePhoto in Hc. injection Hc as _ <-. reflexivity. }
    assert (Hb0 : is_Some (captureButton s0)) by (subst s0; exact Hb).
    rewrite (stopCamera_done s0 Hb0). cbn [and_then state_of].
    destruct (stopCamera_clears s0) as (_ & _ & Hcam).
    cbn -[classList_add classList_remove stopCamera].
    auto using visible_add, visible_remove.
Qed.

Lemma regions_after_settlement_witness :
  xorb
    (visible (resultContainer
       (fetch_settled sample_response sample_loading)))
    (visible (errorMessage
       (fetch_settled sample_response sample_loading))) = true
  /\ visible (cameraContainer (state_of (capturePhoto_click sample_camera))) = false.
Proof.
  split.
  - apply (proj1 (regions_after_settlement sample_loading) sample_response);
      reflexivity.
  - apply (proj2 (proj2 (proj2 (proj2 (regions_after_settlement sample_camera)))));
      [reflexivity | vm_compute; eauto].
Defined.

(** C4, as the specification has it, fails.  A card is on the page, the
    user asks for the camera and is refused: the banner comes up next to
    the card.  And a file chosen while the camera is open leaves the camera
    region open beside the card. *)
Lemma regions_not_exclusive :
  idle sample_page = true
  /\ (exists s,
       run [FileSelected [sample_file "image/png"];
            FetchSettled sample_response;
            CaptureClicked;
            CameraSettled (inr (DOMException "NotAllowedError"))] sample_page = Some s
       /\ visible (resultContainer s) = true
       /\ visible (errorMessage s) = true
       /\ settled_regions s = false)
  /\ (exists s,
       run [CaptureClicked;
            CameraSettled (inl 1%nat);
            FileSelected [sample_file "image/png"];
            FetchSettled sample_response]
         sample_page = Some s
       /\ visible (resultContainer s) = true
       /\ visible (cameraContainer s) = true
       /\ settled_regions s = false).
Proof.
  split; [reflexivity|].
  split; (eexists; split; [vm_compute; reflexivity|]); vm_compute; auto.
Qed.

(** * More of the script *)

(** ** Runs *)

Lemma run_invariant (P : State -> Prop) :
  (forall ev s, P s -> P (step ev s)) ->
  forall evs s s', P s -> run evs s = Some s' -> P s'.
Proof.
  intros Hstep. induction evs as [|ev rest IH]; intros s s' HP Hrun.
  - now injection Hrun as <-.
  - cbn [run] in Hrun. destruct (enabled ev s); [|discriminate Hrun].
    eapply IH; [|exact Hrun]. now apply Hstep.
Qed.

(** ** What the display functions leave alone *)

Lemma showError_camera (v : JsVal) (s : State) :
  camera_part (state_of (showError v s)) = camera_part s.
Proof. unfold showError. destruct (to_text v); reflexivity. Qed.

Lemma handler_camera (data : JsVal) (s : State) :
  camera_part (state_of (handleAnalysisResult data s)) = camera_part s.
Proof.
  unfold handleAnalysisResult.
  destruct (get data "error") as [error|]; [|reflexivity].
  destruct (truthy error); [apply (showError_camera error (hideLoading s))|].
  destruct (get data "success") as [success|]; [|reflexivity].
  destruct (truthy success); cbn [negb].
  - destruct (result_card data); reflexivity.
  - destruct (get data "message") as [message|]; [|reflexivity].
    apply (showError_camera _ (hideLoading s)).
Qed.

Lemma fetch_catch_camera (e : exn) (s : State) :
  camera_part (fetch_catch e s) = camera_part s.
Proof.
  unfold fetch_catch.
  apply (showError_camera (JStr transport_message) (console_error "Error:" e s)).
Qed.

Lemma fetch_settled_camera (o : FetchOutcome) (s : State) :
  camera_part (fetch_settled o s) = camera_part s.
Proof.
  unfold fetch_settled.
  set (s0 := set_pending_fetches (Nat.pred (pending_fetches s)) s).
  change (camera_part s) with (camera_part s0).
  destruct o as [e0|[status [data|e0]]]; cbn [resp_json];
    [apply fetch_catch_camera | | apply fetch_catch_camera].
  pose proof (handler_camera data s0) as H.
  destruct (handleAnalysisResult data s0) as [s'|e s']; [exact H|].
  cbn [state_of] in H. rewrite <- H. apply fetch_catch_camera.
Qed.

Lemma imageUpload_camera (files : list File) (s : State) :
  camera_part (state_of (imageUpload_change files s)) = camera_part s.
Proof.
  unfold imageUpload_change. destruct files as [|file others]; [reflexivity|].
  destruct (regex_search image_pattern (file_type file)); cbn [negb];
    [reflexivity | apply showError_camera].
Qed.

Lemma camera_catch_camera (e : exn) (s : State) :
  camera_part (camera_catch e s) = camera_part s.
Proof.
  unfold camera_catch.
  apply (showError_camera (JStr camera_message)
           (console_error "Error accessing camera: " e s)).
Qed.

Lemma camera_consistent_ext (s s' : State) :
  camera_part s' = camera_part s -> camera_consistent s -> camera_consistent s'.
Proof.
  unfold camera_part, camera_consistent. intros [= Ha Hs Hv Hc Hb Hst].
  rewrite Ha, Hs, Hv, Hc, Hb, Hst. auto.
Qed.

(** ** The camera session *)

Lemma contains_add_same (c : string) (l : gset string) :
  classList_contains c (classList_add c l) = true.
Proof.
  unfold classList_contains, classList_add. apply bool_decide_eq_true_2. set_solver.
Qed.

Lemma contains_add_remove (c d : string) (l : gset string) :
  c <> d -> classList_contains d (classList_add c (classList_remove d l)) = false.
Proof.
  intros Hne. unfold classList_contains, classList_add, classList_remove.
  apply bool_decide_eq_false_2. set_solver.
Qed.

Lemma forallb_replicate_true (n : nat) : forallb id (replicate n true) = true.
Proof. induction n as [|n IH]; [reflexivity | exact IH]. Qed.

Lemma stopCamera_consistent (s : State) :
  video_srcObject s = stream s -> camera_consistent (state_of (stopCamera s)).
Proof.
  unfold stopCamera. rewrite relabel_state.
  destruct s as [a st cb p1 p2 cc vs cw ch rc rh ls em et sup vf sts pc pf rq sc co].
  cbn [video_srcObject stream]. intros ->.
  destruct st as [h|], cb as [b|]; unfold camera_consistent;
    cbn -[classList_add classList_remove];
    (split; [reflexivity|]); (split; [reflexivity|]);
    (split; [apply visible_add|]); (split; [discriminate|discriminate]).
Qed.

Lemma camera_then_consistent (h : nat) (tracks : list bool) (s : State) :
  streams s !! h = Some tracks -> forallb id tracks = true ->
  camera_consistent (state_of (camera_then h s))
  /\ stream (state_of (camera_then h s)) = Some h
  /\ streams (state_of (camera_then h s)) = streams s.
Proof.
  intros Hh Hlive. unfold camera_then. rewrite relabel_state.
  destruct s as [a st cb p1 p2 cc vs cw ch rc rh ls em et sup vf sts pc pf rq sc co].
  cbn [streams] in Hh.
  destruct cb as [b|]; (split; [|split; reflexivity]);
    unfold camera_consistent; cbn -[classList_add classList_remove];
    (split; [reflexivity|]); (split; [reflexivity|]);
    (split; [apply visible_remove|]);
    (split; [intros ? [= <-]; eauto|]).
  - intros b' _ [= <-]. cbn -[classList_add classList_remove].
    split; [reflexivity|].
    split; [apply contains_add_same | now apply contains_add_remove].
  - intros b' _ [=].
Qed.

Lemma camera_settled_granted (tracks : nat) (s : State) :
  let h := new_handle s in
  let s' := camera_settled (inl tracks) s in
  camera_consistent s'
  /\ stream s' = Some h
  /\ streams s' = <[h := replicate tracks true]> (streams s).
Proof.
  cbv zeta. unfold camera_settled.
  set (s0 := set_pending_camera (Nat.pred (pending_camera s)) s).
  change (new_handle s0) with (new_handle s).
  set (h := new_handle s).
  set (s1 := set_streams (<[h := replicate tracks true]> (streams s0)) s0).
  destruct (camera_then_consistent h (replicate tracks true) s1) as (Hc & Hs & Hst).
  { apply lookup_insert_eq. }
  { apply forallb_replicate_true. }
  destruct (camera_then h s1) as [s'|e s']; cbn [state_of] in *.
  - auto.
  - pose proof (camera_catch_camera e s') as Hp.
    split; [exact (camera_consistent_ext _ _ Hp Hc)|].
    exact (conj Hs Hst).
Qed.

Lemma step_camera_consistent (ev : Event) (s : State) :
  camera_consistent s -> camera_consistent (step ev s).
Proof.
  intros Hc. destruct ev as [files| | | |f|[tracks|e]|o]; cbn [step].
  - exact (camera_consistent_ext _ _ (imageUpload_camera files s) Hc).
  - unfold captureButton_click. destruct (isCameraActive s).
    + apply stopCamera_consistent, Hc.
    + unfold startCamera. destruct (camera_supported s).
      * exact (camera_consistent_ext _ _ eq_refl Hc).
      * exact (camera_consistent_ext _ _ (showError_camera _ s) Hc).
  - unfold capturePhoto_click. destruct (isCameraActive s); [|exact Hc].
    destruct (capturePhoto s) as [photo s0] eqn:Hphoto.
    assert (Hs0 : video_srcObject s0 = stream s0).
    { unfold capturePhoto in Hphoto. injection Hphoto as _ <-. apply Hc. }
    pose proof (stopCamera_consistent s0 Hs0) as Hstop.
    destruct (stopCamera s0) as [s1|e s1]; cbn [and_then state_of] in *.
    + exact (camera_consistent_ext _ _ eq_refl Hstop).
    + exact Hstop.
  - apply stopCamera_consistent, Hc.
  - exact (camera_consistent_ext _ _ eq_refl Hc).
  - apply camera_settled_granted.
  - unfold camera_settled.
    exact (camera_consistent_ext _ _
             (camera_catch_camera e (set_pending_camera (Nat.pred (pending_camera s)) s)) Hc).
  - exact (camera_consistent_ext _ _ (fetch_settled_camera o s) Hc).
Qed.

Lemma idle_camera_consistent (s : State) : idle s = true -> camera_consistent s.
Proof.
  unfold idle. rewrite !andb_true_iff, !negb_true_iff, !bool_decide_eq_true.
  intros ((((((((_ & _) & _) & Hcam) & Hact) & Hst) & Hv) & _) & _).
  unfold camera_consistent. rewrite Hst, Hv, Hact, Hcam.
  repeat split; try reflexivity; try discriminate.
Qed.

(** X1.  On every page that starts idle, whatever the user and the
    promises do, the camera state stays consistent: the video shows the
    stream the script holds, the flag is set exactly while it holds one, the
    camera region is visible exactly while the flag is set, the tracks of
    that stream are live, and while the camera is open the capture button
    reads Cancel with the class [btn-danger] and without [btn-primary]. *)
Theorem camera_state_is_consistent (evs : list Event) (s0 s : State) :
  idle s0 = true -> run evs s0 = Some s -> camera_consistent s.
Proof.
  intros Hidle Hrun.
  exact (run_invariant camera_consistent step_camera_consistent evs s0 s
           (idle_camera_consistent s0 Hidle) Hrun).
Qed.

Lemma camera_state_is_consistent_witness : camera_consistent sample_camera.
Proof.
  apply (camera_state_is_consistent
           [CaptureClicked; CameraSettled (inl 1%nat); FrameArrived sample_frame]
           sample_page); vm_compute; reflexivity.
Defined.

(** ** The spinner *)

Lemma showError_hides_spinner (v : JsVal) (s : State) :
  visible (loadingSpinner (state_of (showError v s))) = false.
Proof.
  unfold showError. destruct (to_text v); cbn -[classList_add]; apply visible_add.
Qed.

Lemma handler_hides_spinner (data : JsVal) (s : State) :
  visible (loadingSpinner (state_of (handleAnalysisResult data s))) = false.
Proof.
  pose proof (handler_outcome data s) as H.
  destruct (handleAnalysisResult data s) as [s'|e s']; cbn [state_of].
  - apply H.
  - subst s'. cbn -[classList_add]. apply visible_add.
Qed.

Lemma fetch_catch_hides_spinner (e : exn) (s : State) :
  visible (loadingSpinner (fetch_catch e s)) = false.
Proof. unfold fetch_catch. apply showError_hides_spinner. Qed.

Lemma fetch_settled_hides_spinner (o : FetchOutcome) (s : State) :
  visible (loadingSpinner (fetch_settled o s)) = false.
Proof.
  unfold fetch_settled.
  set (s0 := set_pending_fetches (Nat.pred (pending_fetches s)) s).
  destruct o as [e0|[status [data|e0]]]; cbn [resp_json];
    [apply fetch_catch_hides_spinner | | apply fetch_catch_hides_spinner].
  pose proof (handler_hides_spinner data s0) as H.
  destruct (handleAnalysisResult data s0) as [s'|e s'];
    [exact H | apply fetch_catch_hides_spinner].
Qed.

Lemma stopCamera_spinner (s : State) :
  spinner_part (state_of (stopCamera s)) = spinner_part s.
Proof.
  unfold stopCamera. rewrite relabel_state.
  destruct s as [a st cb p1 p2 cc vs cw ch rc rh ls em et sup vf sts pc pf rq sc co].
  destruct st, cb; reflexivity.
Qed.

Lemma spinner_pending_ext (s s' : State) :
  spinner_part s' = spinner_part s -> spinner_pending s -> spinner_pending s'.
Proof.
  unfold spinner_part, spinner_pending. intros [= Hl Hp]. now rewrite Hl, Hp.
Qed.

Lemma spinner_pending_hidden (s : State) :
  visible (loadingSpinner s) = false -> spinner_pending s.
Proof. unfold spinner_pending. intros ->. discriminate. Qed.

Lemma step_spinner_pending (ev : Event) (s : State) :
  spinner_pending s -> spinner_pending (step ev s).
Proof.
  intros Hs. destruct ev as [files| | | |f|[tracks|e]|o]; cbn [step].
  - unfold imageUpload_change. destruct files as [|file others]; [exact Hs|].
    destruct (regex_search image_pattern (file_type file)); cbn [negb].
    + intros _. cbn. lia.
    + apply spinner_pending_hidden, showError_hides_spinner.
  - unfold captureButton_click. destruct (isCameraActive s).
    + exact (spinner_pending_ext _ _ (stopCamera_spinner s) Hs).
    + unfold startCamera. destruct (camera_supported s); [exact Hs|].
      apply spinner_pending_hidden, showError_hides_spinner.
  - unfold capturePhoto_click. destruct (isCameraActive s); [|exact Hs].
    destruct (capturePhoto s) as [photo s0] eqn:Hphoto.
    assert (Hs0 : spinner_pending s0).
    { unfold capturePhoto in Hphoto. injection Hphoto as _ <-. exact Hs. }
    pose proof (stopCamera_spinner s0) as Hstop.
    destruct (stopCamera s0) as [s1|e s1]; cbn [and_then state_of] in *.
    + intros _. cbn. lia.
    + exact (spinner_pending_ext _ _ Hstop Hs0).
  - exact (spinner_pending_ext _ _ (stopCamera_spinner s) Hs).
  - exact Hs.
  - unfold camera_settled.
    set (s0 := set_pending_camera (Nat.pred (pending_camera s)) s).
    set (s1 := set_streams _ s0).
    assert (H1 : spinner_pending s1) by exact Hs.
    unfold camera_then. 
    match goal with
    | |- spinner_pending (match relabel ?t ?a ?r ?x with _ => _ end) =>
        pose proof (relabel_state t a r x) as Hrel;
        destruct (relabel t a r x) as [s'|e' s']; cbn [state_of] in Hrel
    end.
    + subst s'. destruct (captureButton _); exact H1.
    + apply spinner_pending_hidden. unfold camera_catch.
      apply showError_hides_spinner.
  - unfold camera_settled. apply spinner_pending_hidden.
    unfold camera_catch. apply showError_hides_spinner.
  - apply spinner_pending_hidden, fetch_settled_hides_spinner.
Qed.

(** X2.  On every page that starts idle the spinner is visible only while a
    request is pending.  The converse does not hold: a settlement hides the
    spinner also when other requests are still pending. *)
Theorem spinner_only_while_pending (evs : list Event) (s0 s : State) :
  idle s0 = true -> run evs s0 = Some s ->
  (visible (loadingSpinner s) = true -> (0 < pending_fetches s)%nat)
  /\ ((2 <= pending_fetches s)%nat -> forall o,
        visible (loadingSpinner (fetch_settled o s)) = false
        /\ (0 < pending_fetches (fetch_settled o s))%nat).
Proof.
  intros Hidle Hrun. split.
  - refine (run_invariant spinner_pending step_spinner_pending evs s0 s _ Hrun).
    apply spinner_pending_hidden.
    unfold idle in Hidle. rewrite !andb_true_iff, !negb_true_iff in Hidle.
    apply Hidle.
  - intros Htwo o. split; [apply fetch_settled_hides_spinner|].
    assert (Hpred : pending_fetches (fetch_settled o s) = Nat.pred (pending_fetches s)).
    { unfold fetch_settled.
      set (s1 := set_pending_fetches (Nat.pred (pending_fetches s)) s).
      assert (Hcatch : forall e s2,
                pending_fetches (fetch_catch e s2) = pending_fetches s2)
        by (intros; apply fetch_catch_banner).
      change (Nat.pred (pending_fetches s)) with (pending_fetches s1).
      destruct o as [e0|[status [data|e0]]]; cbn [resp_json];
        [apply Hcatch | | apply Hcatch].
      pose proof (handler_outcome data s1) as H.
      destruct (handleAnalysisResult data s1) as [s'|e s'].
      + apply H.
      + subst s'. apply (Hcatch e (hideLoading s1)). }
    rewrite Hpred. lia.
Qed.

Lemma spinner_only_while_pending_witness :
  (0 < pending_fetches sample_loading)%nat
  /\ visible (loadingSpinner
        (fetch_settled sample_response
           (step (FileSelected [sample_file "image/jpeg"]) sample_loading))) = false.
Proof.
  split.
  - apply (spinner_only_while_pending [FileSelected [sample_file "image/png"]]
             sample_page sample_loading); vm_compute; reflexivity.
  - apply (spinner_only_while_pending
             [FileSelected [sample_file "image/png"];
              FileSelected [sample_file "image/jpeg"]]
             sample_page
             (step (FileSelected [sample_file "image/jpeg"]) sample_loading));
      [vm_compute; reflexivity | vm_compute; reflexivity | vm_compute; lia].
Defined.

(** ** The requests *)

Lemma starts_with_append (p s : string) : starts_with p (p +:+ s) = true.
Proof.
  induction p as [|c p IH]; [reflexivity|].
  change (String c p +:+ s) with (String c (p +:+ s)).
  cbn [starts_with]. now rewrite Ascii.eqb_refl, IH.
Qed.

Lemma showError_requests (v : JsVal) (s : State) :
  requests (state_of (showError v s)) = requests s.
Proof. unfold showError. destruct (to_text v); reflexivity. Qed.

Lemma stopCamera_requests (s : State) :
  requests (state_of (stopCamera s)) = requests s.
Proof.
  unfold stopCamera. rewrite relabel_state.
  destruct s as [a st cb p1 p2 cc vs cw ch rc rh ls em et sup vf sts pc pf rq sc co].
  destruct st, cb; reflexivity.
Qed.

Lemma fetch_settled_requests (o : FetchOutcome) (s : State) :
  requests (fetch_settled o s) = requests s.
Proof.
  unfold fetch_settled.
  set (s0 := set_pending_fetches (Nat.pred (pending_fetches s)) s).
  assert (Hcatch : forall e s1, requests (fetch_catch e s1) = requests s1)
    by (intros; apply fetch_catch_banner).
  change (requests s) with (requests s0).
  destruct o as [e0|[status [data|e0]]]; cbn [resp_json];
    [apply Hcatch | | apply Hcatch].
  pose proof (handler_outcome data s0) as H.
  destruct (handleAnalysisResult data s0) as [s'|e s'].
  - apply H.
  - subst s'. apply (Hcatch e (hideLoading s0)).
Qed.

Lemma camera_settled_requests (o : nat + exn) (s : State) :
  requests (camera_settled o s) = requests s.
Proof.
  unfold camera_settled, camera_catch.
  destruct o as [tracks|e]; [|now rewrite showError_requests].
  unfold camera_then.
  match goal with
  | |- requests (match relabel ?t ?a ?r ?x with _ => _ end) = _ =>
      pose proof (relabel_state t a r x) as Hrel;
      destruct (relabel t a r x) as [s'|e' s']; cbn [state_of] in Hrel
  end.
  - subst s'. destruct (captureButton _); reflexivity.
  - rewrite showError_requests. subst s'. destruct (captureButton _); reflexivity.
Qed.

Lemma step_requests (ev : Event) (s : State) :
  requests (step ev s) = requests s
  \/ exists r, requests (step ev s) = r :: requests s /\ analyze_request r.
Proof.
  destruct ev as [files| | | |f|o|o]; cbn [step].
  - unfold imageUpload_change. destruct files as [|file others]; [now left|].
    destruct (regex_search image_pattern (file_type file)) eqn:Hm; cbn [negb].
    + right. eexists. split; [reflexivity|].
      rewrite image_pattern_contains in Hm. repeat split. exact Hm.
    + left. apply showError_requests.
  - left. unfold captureButton_click. destruct (isCameraActive s).
    + apply stopCamera_requests.
    + unfold startCamera. destruct (camera_supported s);
        [reflexivity | apply showError_requests].
  - unfold capturePhoto_click. destruct (isCameraActive s); [|now left].
    destruct (capturePhoto s) as [photo s0] eqn:Hphoto.
    assert (Hs0 : requests s0 = requests s).
    { unfold capturePhoto in Hphoto. now injection Hphoto as _ <-. }
    pose proof (stopCamera_requests s0) as Hstop.
    destruct (stopCamera s0) as [s1|e s1]; cbn [and_then state_of] in *.
    + right. eexists. split.
      * cbn. rewrite Hstop, Hs0. reflexivity.
      * do 2 (split; [reflexivity|]).
        split; [apply starts_with_append | reflexivity].
    + left. now rewrite Hstop.
  - left. apply stopCamera_requests.
  - now left.
  - left. apply camera_settled_requests.
  - left. apply fetch_settled_requests.
Qed.

(** X3.  Whatever happens on the page, the requests already sent stay as
    they are and every request added is one of the two the script builds: a
    POST to [/analyze] carrying either form data with the single field
    [image], a file whose type contains "image", and no header of the
    script's own, or a string body that starts with [image_data=] under the
    URL-encoded content type. *)
Theorem only_analyze_requests (evs : list Event) (s s' : State) :
  run evs s = Some s' ->
  exists added, requests s' = (added ++ requests s)%list
                /\ Forall analyze_request added.
Proof.
  revert s. induction evs as [|ev rest IH]; intros s Hrun.
  - injection Hrun as <-. exists []. split; [reflexivity | constructor].
  - cbn [run] in Hrun. destruct (enabled ev s); [|discriminate Hrun].
    destruct (IH _ Hrun) as (added & Hreq & Hall).
    destruct (step_requests ev s) as [Hsame | (r & Hnew & Hr)].
    + exists added. now rewrite Hreq, Hsame.
    + exists (added ++ [r])%list. split.
      * rewrite Hreq, Hnew, <- app_assoc. reflexivity.
      * apply Forall_app. split; [exact Hall|].
        apply List.Forall_cons; [exact Hr | apply List.Forall_nil].
Qed.

Lemma only_analyze_requests_witness :
  exists added,
    requests (state_of (capturePhoto_click sample_camera))
    = (added ++ requests sample_page)%list
    /\ Forall analyze_request added.
Proof.
  apply (only_analyze_requests
           [CaptureClicked; CameraSettled (inl 1%nat); FrameArrived sample_frame;
            CapturePhotoClicked] sample_page).
  vm_compute. reflexivity.
Defined.

(** ** Streams *)

Lemma fold_max_bound (k : nat) (l : list nat) :
  In k l -> (k <= fold_right Nat.max 0 l)%nat.
Proof.
  induction l as [|x rest IH]; [intros []|].
  intros [-> | Hin]; cbn [fold_right]; [lia|]. specialize (IH Hin). lia.
Qed.

(** The handle of a new stream is above every handle in use. *)
Lemma new_handle_fresh (s : State) (k : nat) :
  is_Some (streams s !! k) -> (k < new_handle s)%nat.
Proof.
  intros Hk. unfold new_handle.
  assert (Hin : In k (elements (dom (streams s)))).
  { apply list_elem_of_In, elem_of_elements, elem_of_dom, Hk. }
  pose proof (fold_max_bound _ _ Hin). lia.
Qed.

Lemma map_false (tracks : list bool) :
  map (fun _ => false) tracks = replicate (length tracks) false.
Proof. induction tracks as [|b rest IH]; [reflexivity | cbn; now rewrite IH]. Qed.

Lemma stopCamera_streams (s : State) :
  stream (state_of (stopCamera s)) = None
  /\ streams (state_of (stopCamera s))
     = match stream s with
       | Some h => alter (map (fun _ => false)) h (streams s)
       | None => streams s
       end.
Proof.
  unfold stopCamera. rewrite relabel_state.
  destruct s as [a st cb p1 p2 cc vs cw ch rc rh ls em et sup vf sts pc pf rq sc co].
  destruct st, cb; split; reflexivity.
Qed.

(** One step does one of three things to the streams: nothing, end the
    tracks of the stream the script holds and forget it, or take a new
    stream under a fresh handle. *)
Lemma step_streams (ev : Event) (s : State) :
  (stream (step ev s) = stream s /\ streams (step ev s) = streams s)
  \/ (stream (step ev s) = None
      /\ streams (step ev s)
         = match stream s with
           | Some h => alter (map (fun _ => false)) h (streams s)
           | None => streams s
           end)
  \/ (exists n, stream (step ev s) = Some (new_handle s)
                /\ streams (step ev s) = <[new_handle s := replicate n true]> (streams s)).
Proof.
  assert (Hpart : forall s', camera_part s' = camera_part s ->
            stream s' = stream s /\ streams s' = streams s).
  { intros s' [= _ Hs _ _ _ Hst]. auto. }
  destruct ev as [files| | | |f|[tracks|e]|o]; cbn [step].
  - left. apply Hpart, imageUpload_camera.
  - unfold captureButton_click. destruct (isCameraActive s).
    + right. left. apply stopCamera_streams.
    + left. unfold startCamera. destruct (camera_supported s);
        [split; reflexivity | apply Hpart, showError_camera].
  - unfold capturePhoto_click. destruct (isCameraActive s); [|left; auto].
    destruct (capturePhoto s) as [photo s0] eqn:Hphoto.
    assert (Hs0 : s0 = set_canvas_height (videoHeight s)
                         (set_canvas_width (videoWidth s) s)).
    { unfold capturePhoto in Hphoto. injection Hphoto as _ <-. reflexivity. }
    right. left. pose proof (stopCamera_streams s0) as Hstop.
    destruct (stopCamera s0) as [s1|e s1]; cbn [and_then state_of] in *;
      subst s0; exact Hstop.
  - right. left. apply stopCamera_streams.
  - left. auto.
  - right. right. exists tracks. apply camera_settled_granted.
  - left. unfold camera_settled.
    apply (Hpart _ (camera_catch_camera e
                      (set_pending_camera (Nat.pred (pending_camera s)) s))).
  - left. apply Hpart, fetch_settled_camera.
Qed.

(** X4.  [stopCamera] ends every track of the stream the script holds and
    no track of any other stream; without a held stream it changes no
    stream at all. *)
Theorem stopCamera_stops_held_tracks (s : State) (k : nat) :
  streams (state_of (stopCamera s)) !! k
  = if bool_decide (stream s = Some k)
    then (fun tracks => replicate (length tracks) false) <$> streams s !! k
    else streams s !! k.
Proof.
  destruct (stopCamera_streams s) as (_ & ->).
  destruct (stream s) as [h|].
  - case_bool_decide as Hk.
    + injection Hk as ->. rewrite lookup_alter_eq.
      destruct (streams s !! k) as [tracks|]; cbn; [|reflexivity].
      now rewrite map_false.
    + apply lookup_alter_ne. congruence.
  - now rewrite bool_decide_eq_false_2.
Qed.

Lemma step_keeps_forgotten (h : nat) (tracks : list bool) (ev : Event) (s : State) :
  streams s !! h = Some tracks /\ stream s <> Some h ->
  streams (step ev s) !! h = Some tracks /\ stream (step ev s) <> Some h.
Proof.
  intros (Hh & Hne).
  assert (Hfresh : new_handle s <> h).
  { pose proof (new_handle_fresh s h) as Hlt. rewrite Hh in Hlt.
    specialize (Hlt (ex_intro _ tracks eq_refl)). lia. }
  destruct (step_streams ev s) as [(Hs & Hst) | [(Hs & Hst) | (n & Hs & Hst)]];
    rewrite Hs, Hst.
  - auto.
  - split; [|discriminate]. destruct (stream s) as [h0|]; [|exact Hh].
    rewrite lookup_alter_ne; [exact Hh | congruence].
  - split; [|congruence]. now rewrite lookup_insert_ne.
Qed.

(** X5.  A stream is leaked when a second grant arrives while the script
    holds one: the script then holds the new stream, and from there on
    nothing that happens on the page ends the tracks of the first. *)
Theorem second_grant_leaks_first_stream
    (s s' : State) (h n : nat) (tracks : list bool) (evs : list Event) :
  stream s = Some h -> streams s !! h = Some tracks ->
  run (CameraSettled (inl n) :: evs) s = Some s' ->
  streams s' !! h = Some tracks /\ stream s' <> Some h.
Proof.
  intros Hs Hh Hrun. cbn [run] in Hrun.
  destruct (enabled (CameraSettled (inl n)) s); [|discriminate Hrun].
  refine (run_invariant
            (fun x => streams x !! h = Some tracks /\ stream x <> Some h)
            (step_keeps_forgotten h tracks) evs _ s' _ Hrun).
  assert (Hfresh : new_handle s <> h).
  { pose proof (new_handle_fresh s h) as Hlt. rewrite Hh in Hlt.
    specialize (Hlt (ex_intro _ tracks eq_refl)). lia. }
  cbn [step]. destruct (camera_settled_granted n s) as (_ & Hs1 & Hst1).
  rewrite Hs1, Hst1. split; [now rewrite lookup_insert_ne | congruence].
Qed.

Lemma second_grant_leaks_first_stream_witness :
  exists s',
    run [CameraSettled (inl 1%nat); CancelClicked] sample_double_click = Some s'
    /\ streams s' !! 1%nat = Some [true] /\ stream s' <> Some 1%nat.
Proof.
  eexists. split; [vm_compute; reflexivity|].
  apply (second_grant_leaks_first_stream sample_double_click _ 1 1 [true]
           [CancelClicked]); vm_compute; reflexivity.
Defined.

Lemma classList_restore (c d : string) (l : gset string) :
  c <> d ->
  classList_contains c l = true -> classList_contains d l = false ->
  classList_add c (classList_remove d (classList_add d (classList_remove c l))) = l.
Proof.
  unfold classList_contains, classList_add, classList_remove.
  rewrite bool_decide_eq_true, bool_decide_eq_false. intros Hne Hc Hd.
  apply set_eq. intros y.
  destruct (decide (y = c)) as [->|Hyc]; [set_solver|].
  destruct (decide (y = d)) as [->|Hyd]; set_solver.
Qed.

Lemma classList_hide_again (l : gset string) :
  visible l = false -> classList_add "d-none" (classList_remove "d-none" l) = l.
Proof.
  unfold visible, classList_contains, classList_add, classList_remove.
  rewrite negb_false_iff, bool_decide_eq_true. intros Hin.
  apply set_eq. intros y. destruct (decide (y = "d-none")) as [->|Hy]; set_solver.
Qed.


(** The camera part after [stopCamera], and after a grant. *)
Lemma stopCamera_camera_part (s : State) :
  camera_part (state_of (stopCamera s))
  = (false, None,
     match stream s with Some _ => None | None => video_srcObject s end,
     classList_add "d-none" (cameraContainer s),
     match captureButton s with
     | Some b =>
         Some {| btn_text := "Use Camera";
                 btn_classes :=
                   classList_add "btn-primary"
                     (classList_remove "btn-danger" (btn_classes b)) |}
     | None => None
     end,
     match stream s with
     | Some h => alter (map (fun _ => false)) h (streams s)
     | None => streams s
     end).
Proof.
  unfold stopCamera. rewrite relabel_state.
  destruct s as [a st cb p1 p2 cc vs cw ch rc rh ls em et sup vf sts pc pf rq sc co].
  destruct st, cb; reflexivity.
Qed.

Lemma camera_then_camera_part (h : nat) (s : State) :
  camera_part (state_of (camera_then h s))
  = (true, Some h, Some h, classList_remove "d-none" (cameraContainer s),
     match captureButton s with
     | Some b =>
         Some {| btn_text := "Cancel";
                 btn_classes :=
                   classList_add "btn-danger"
                     (classList_remove "btn-primary" (btn_classes b)) |}
     | None => None
     end,
     streams s).
Proof.
  unfold camera_then. rewrite relabel_state.
  destruct s as [a st cb p1 p2 cc vs cw ch rc rh ls em et sup vf sts pc pf rq sc co].
  destruct cb; reflexivity.
Qed.

Lemma granted_camera_part (n : nat) (s : State) :
  camera_part (camera_settled (inl n) s)
  = (true, Some (new_handle s), Some (new_handle s),
     classList_remove "d-none" (cameraContainer s),
     match captureButton s with
     | Some b =>
         Some {| btn_text := "Cancel";
                 btn_classes :=
                   classList_add "btn-danger"
                     (classList_remove "btn-primary" (btn_classes b)) |}
     | None => None
     end,
     <[new_handle s := replicate n true]> (streams s)).
Proof.
  unfold camera_settled.
  set (s0 := set_pending_camera (Nat.pred (pending_camera s)) s).
  change (new_handle s0) with (new_handle s).
  set (s1 := set_streams (<[new_handle s := replicate n true]> (streams s0)) s0).
  pose proof (camera_then_camera_part (new_handle s) s1) as H.
  destruct (camera_then (new_handle s) s1) as [s'|e s']; cbn [state_of] in H.
  - exact H.
  - rewrite camera_catch_camera. exact H.
Qed.

Lemma camera_part_fields (s : State) (a : bool) (st v : option nat)
    (c : gset string) (b : option Button) (m : gmap nat (list bool)) :
  camera_part s = (a, st, v, c, b, m) ->
  isCameraActive s = a /\ stream s = st /\ video_srcObject s = v
  /\ cameraContainer s = c /\ captureButton s = b /\ streams s = m.
Proof. unfold camera_part. intros [= -> -> -> -> -> ->]. auto 6. Qed.

(** X6.  Opening the camera and closing it again gives the camera controls
    back.  On a page with the camera closed and the capture button reading
    Use Camera with [btn-primary] and without [btn-danger], a click on the
    button and the grant of a stream open the camera; a second click, or a
    click on the cancel button, then leaves the capture button and the
    camera region exactly as they were at the start, with no stream held,
    the video without a source, and every track of the granted stream
    ended. *)
Theorem open_then_close_restores (s : State) (b : Button) (n : nat) (ev : Event) :
  captureButton s = Some b -> btn_text b = "Use Camera" ->
  classList_contains "btn-primary" (btn_classes b) = true ->
  classList_contains "btn-danger" (btn_classes b) = false ->
  isCameraActive s = false -> stream s = None -> video_srcObject s = None ->
  visible (cameraContainer s) = false -> camera_supported s = true ->
  ev = CaptureClicked \/ ev = CancelClicked ->
  let opened := step (CameraSettled (inl n)) (step CaptureClicked s) in
  let closed := step ev opened in
  isCameraActive opened = true
  /\ visible (cameraContainer opened) = true
  /\ captureButton closed = Some b
  /\ cameraContainer closed = cameraContainer s
  /\ isCameraActive closed = false
  /\ stream closed = None
  /\ video_srcObject closed = None
  /\ streams closed = <[new_handle s := replicate n false]> (streams s).
Proof.
  intros Hb Htext Hprimary Hdanger Ha Hst Hv Hhidden Hsup Hev. cbv zeta.
  assert (Hstart : step CaptureClicked s = set_pending_camera (S (pending_camera s)) s).
  { cbn [step]. unfold captureButton_click, startCamera. now rewrite Ha, Hsup. }
  rewrite Hstart. set (s1 := set_pending_camera (S (pending_camera s)) s).
  cbn [step].
  pose proof (granted_camera_part n s1) as Hopen.
  change (new_handle s1) with (new_handle s) in Hopen.
  change (cameraContainer s1) with (cameraContainer s) in Hopen.
  change (captureButton s1) with (captureButton s) in Hopen.
  change (streams s1) with (streams s) in Hopen.
  rewrite Hb in Hopen.
  set (opened := camera_settled (inl n) s1) in *.
  apply camera_part_fields in Hopen as (Hoa & Hos & Hov & Hoc & Hob & Host).
  assert (Hclose : step ev opened = state_of (stopCamera opened)).
  { destruct Hev as [-> | ->]; cbn [step]; [|reflexivity].
    unfold captureButton_click. now rewrite Hoa. }
  rewrite Hclose. pose proof (stopCamera_camera_part opened) as Hc.
  rewrite Hos, Hoc, Hob, Host in Hc. cbn [btn_classes] in Hc.
  rewrite alter_insert_eq, map_false, length_replicate in Hc.
  rewrite (classList_restore "btn-primary" "btn-danger") in Hc
    by (assumption || discriminate).
  rewrite (classList_hide_again _ Hhidden) in Hc.
  apply camera_part_fields in Hc as (Hca & Hcs & Hcv & Hcc & Hcb & Hcst).
  split; [exact Hoa|]. split; [rewrite Hoc; apply visible_remove|].
  split; [rewrite Hcb; destruct b; cbn in Htext; now subst|].
  auto.
Qed.

Lemma open_then_close_restores_witness :
  captureButton
    (step CancelClicked
       (step (CameraSettled (inl 1%nat)) (step CaptureClicked sample_page)))
  = captureButton sample_page.
Proof.
  refine (proj1 (proj2 (proj2 (open_then_close_restores sample_page
            {| btn_text := "Use Camera"; btn_classes := {[ "btn"; "btn-primary" ]} |}
            1 CancelClicked _ _ _ _ _ _ _ _ _ _))));
    try (vm_compute; reflexivity).
  right. reflexivity.
Defined.

(** ** The encoding of the photo *)

Lemma hex_char_injective (a b : nat) :
  (a < 16)%nat -> (b < 16)%nat -> hex_char a = hex_char b -> a = b.
Proof.
  intros Ha Hb.
  do 16 (destruct a as [|a];
         [do 16 (destruct b as [|b]; [first [reflexivity | discriminate]|]); lia|]).
  lia.
Qed.

Lemma percent_not_unreserved : is_uri_unreserved "%" = false.
Proof. reflexivity. Qed.

(** X7.  [encodeURIComponent] loses nothing: two strings with the same
    encoding are the same string, so the data URL of the photo can be read
    back from the body of the request.  No character of the encoding is an
    ampersand, an equals sign, a plus sign or a space, so the body
    [image_data=...] is one field. *)
Theorem encodeURIComponent_injective (s1 s2 : string) :
  (encodeURIComponent s1 = encodeURIComponent s2 -> s1 = s2)
  /\ all_chars (fun c => negb (existsb (Ascii.eqb c) ["&"; "="; "+"; " "]%char))
       (encodeURIComponent s1) = true.
Proof.
  split.
  - revert s2. induction s1 as [|c1 r1 IH]; intros [|c2 r2]; cbn [encodeURIComponent].
    + reflexivity.
    + destruct (is_uri_unreserved c2); discriminate.
    + destruct (is_uri_unreserved c1); discriminate.
    + destruct (is_uri_unreserved c1) eqn:H1, (is_uri_unreserved c2) eqn:H2.
      * intros [= -> Hr]. f_equal. now apply IH.
      * intros [= -> _]. now rewrite percent_not_unreserved in H1.
      * intros [= <- _]. now rewrite percent_not_unreserved in H2.
      * set (hi1 := (nat_of_ascii c1 / 16)%nat). set (lo1 := (nat_of_ascii c1 mod 16)%nat).
        set (hi2 := (nat_of_ascii c2 / 16)%nat). set (lo2 := (nat_of_ascii c2 mod 16)%nat).
        intros Heq.
        assert (Hhi : hex_char hi1 = hex_char hi2) by congruence.
        assert (Hlo : hex_char lo1 = hex_char lo2) by congruence.
        assert (Hr : encodeURIComponent r1 = encodeURIComponent r2) by congruence.
        clear Heq. subst hi1 lo1 hi2 lo2.
        f_equal; [|now apply IH].
        pose proof (nat_ascii_bounded c1) as B1.
        pose proof (nat_ascii_bounded c2) as B2.
        apply hex_char_injective in Hhi;
          [|apply Nat.Div0.div_lt_upper_bound; lia
           |apply Nat.Div0.div_lt_upper_bound; lia].
        apply hex_char_injective in Hlo;
          [|apply Nat.mod_upper_bound; discriminate
           |apply Nat.mod_upper_bound; discriminate].
        rewrite <- (ascii_nat_embedding c1), <- (ascii_nat_embedding c2).
        f_equal.
        rewrite (Nat.div_mod_eq (nat_of_ascii c1) 16),
                (Nat.div_mod_eq (nat_of_ascii c2) 16).
        now rewrite Hhi, Hlo.
  - pose proof (encodeURIComponent_chars s1) as H.
    induction (encodeURIComponent s1) as [|c r IH]; [reflexivity|].
    cbn [all_chars] in *. apply andb_true_iff in H as [Hc Hr].
    rewrite (IH Hr), andb_true_r.
    apply orb_true_iff in Hc as [Hc | Hc].
    + destruct (existsb (Ascii.eqb c) ["&"; "="; "+"; " "]%char) eqn:Hex;
        [|reflexivity].
      cbn in Hex. rewrite !orb_true_iff in Hex.
      destruct Hex as [Hx | [Hx | [Hx | [Hx | Hx]]]]; try discriminate Hx;
        apply Ascii.eqb_eq in Hx; subst c; discriminate Hc.
    + apply Ascii.eqb_eq in Hc. subst c. reflexivity.
Qed.

(** ** The type check of the upload *)

(** X8.  The upload listener looks at the first selected file only, and its
    type check is a search for the letters "image" anywhere in the declared
    type: the file is sent exactly when its type contains them, and
    otherwise nothing is sent.  With no file selected nothing happens. *)
Theorem upload_sends_first_image_file (file : File) (others : list File) (s : State) :
  imageUpload_change (file :: others) s = imageUpload_change [file] s
  /\ requests (state_of (imageUpload_change (file :: others) s))
     = ((if contains "image" (file_type file)
         then [{| req_url := "/analyze"; req_method := "POST"; req_headers := [];
                  req_body := FormDataBody [("image", FileEntry file)] |}]
         else []) ++ requests s)%list
  /\ imageUpload_change [] s = Done s.
Proof.
  split; [reflexivity|]. split; [|reflexivity].
  unfold imageUpload_change. rewrite image_pattern_contains.
  destruct (contains "image" (file_type file)); cbn [negb].
  - reflexivity.
  - now rewrite showError_requests.
Qed.

(** ** Bodies that are not an object *)

(** X9.  A JSON body that is not an object.  For [null] the handler throws
    at its first read, after hiding the spinner, and the [catch] of the
    chain shows the transport message.  For a number, a string, a boolean,
    an array or the empty object the fields read as [undefined], and the
    banner shows the default text of a failed analysis. *)
Theorem body_that_is_no_object (data : JsVal) (status : Z) (s : State) :
  match data with
  | JNull =>
      exists what,
        handleAnalysisResult data s = Threw (TypeError what) (hideLoading s)
        /\ transport_banner (TypeError what)
             (set_pending_fetches (Nat.pred (pending_fetches s)) s)
             (fetch_settled
                (Responded {| resp_status := status; resp_json := Normal data |}) s)
  | JBool _ | JNum _ | JStr _ | JArr _ | JObj [] =>
      displays_error "An unknown error occurred during face analysis." s
        (handleAnalysisResult data s)
  | JUndefined | JObj (_ :: _) => True
  end.
Proof.
  destruct data as [| |b|x|t|items|[|kv fields]]; try exact I;
    try (unfold handleAnalysisResult; cbn [get assoc truthy negb];
         apply showError_displays; reflexivity).
  eexists. split; [reflexivity|].
  unfold fetch_settled. cbn [resp_json].
  set (s0 := set_pending_fetches (Nat.pred (pending_fetches s)) s).
  change (handleAnalysisResult JNull s0) with
    (Threw (TypeError ("Cannot read properties of null (reading '" +:+ "error" +:+ "')"))
       (hideLoading s0)).
  cbv iota.
  destruct (fetch_catch_banner
              (TypeError ("Cannot read properties of null (reading '" +:+ "error" +:+ "')"))
              (hideLoading s0)) as ((Ht & Hv & Hl & Hr & Hc) & _).
  repeat split; assumption.
Qed.

(** ** Taking the photo *)

Lemma stopCamera_canvas (s : State) :
  canvas_width (state_of (stopCamera s)) = canvas_width s
  /\ canvas_height (state_of (stopCamera s)) = canvas_height s.
Proof.
  unfold stopCamera. rewrite relabel_state.
  destruct s as [a st cb p1 p2 cc vs cw ch rc rh ls em et sup vf sts pc pf rq sc co].
  destruct st, cb; split; reflexivity.
Qed.

(** X10.  With the camera open and a frame on the video, the capture
    listener sizes the canvas to the frame, takes the JPEG of the frame as
    the photo, releases the camera (every track of the held stream ended, no
    stream held, the video without a source, the flag off), shows the
    spinner and sends the encoded photo. *)
Theorem capture_sends_frame_and_releases
    (s : State) (b : Button) (h : nat) (tracks : list bool) :
  isCameraActive s = true -> captureButton s = Some b ->
  stream s = Some h -> video_srcObject s = Some h ->
  streams s !! h = Some tracks ->
  frame_width (video_frame s) <> 0%N -> frame_height (video_frame s) <> 0%N ->
  exists s',
    capturePhoto_click s = Done s'
    /\ requests s'
       = {| req_url := "/analyze"; req_method := "POST";
            req_headers := [("Content-Type", "application/x-www-form-urlencoded")];
            req_body := StringBody
              ("image_data=" +:+ encodeURIComponent (frame_jpeg (video_frame s))) |}
         :: requests s
    /\ canvas_width s' = frame_width (video_frame s)
    /\ canvas_height s' = frame_height (video_frame s)
    /\ streams s' !! h = Some (replicate (length tracks) false)
    /\ stream s' = None /\ video_srcObject s' = None /\ isCameraActive s' = false
    /\ visible (loadingSpinner s') = true.
Proof.
  intros Ha Hb Hst Hv Hh Hw Hht.
  unfold capturePhoto_click. rewrite Ha.
  destruct (capturePhoto s) as [photo s0] eqn:Hc.
  unfold capturePhoto in Hc. injection Hc as Hphoto Hs0.
  assert (Hcw : canvas_width s0 = frame_width (video_frame s)).
  { rewrite <- Hs0. cbn [canvas_width set_canvas_height set_canvas_width].
    unfold videoWidth. now rewrite Hv. }
  assert (Hch : canvas_height s0 = frame_height (video_frame s)).
  { rewrite <- Hs0. cbn [canvas_height set_canvas_height].
    unfold videoHeight. cbn [video_srcObject set_canvas_width video_frame].
    now rewrite Hv. }
  assert (Hurl : photo = frame_jpeg (video_frame s)).
  { rewrite <- Hphoto. unfold toDataURL.
    change (canvas_width (set_canvas_height _ _)) with (videoWidth s).
    change (canvas_height (set_canvas_height ?x _)) with x.
    change (videoHeight (set_canvas_width _ s)) with (videoHeight s).
    unfold videoWidth, videoHeight. rewrite Hv.
    apply N.eqb_neq in Hw, Hht. now rewrite Hw, Hht. }
  assert (Hpart : camera_part s0 = camera_part s) by (now rewrite <- Hs0).
  apply camera_part_fields in Hpart as (_ & Hst0 & _ & _ & Hb0 & Hstr0).
  assert (Hreq0 : requests s0 = requests s) by (now rewrite <- Hs0).
  rewrite (stopCamera_done s0) by (rewrite Hb0, Hb; eauto).
  cbn [and_then].
  pose proof (stopCamera_camera_part s0) as Hpart1.
  pose proof (stopCamera_requests s0) as Hreq1.
  pose proof (stopCamera_canvas s0) as (Hcw1 & Hch1).
  remember (state_of (stopCamera s0)) as s1 eqn:Hs1. clear Hs1.
  rewrite Hst0, Hst, Hstr0 in Hpart1.
  apply camera_part_fields in Hpart1 as (Hact1 & Hstream1 & Hvideo1 & _ & _ & Hstreams1).
  eexists. split; [reflexivity|].
  cbn -[classList_add classList_remove encodeURIComponent].
  rewrite Hreq1, Hreq0, Hcw1, Hch1, Hcw, Hch, Hurl, Hstreams1, lookup_alter_eq, Hh.
  cbn [fmap option_fmap option_map]. rewrite map_false.
  repeat split; auto using visible_remove.
Qed.

Lemma capture_sends_frame_and_releases_witness :
  exists s',
    capturePhoto_click sample_camera = Done s'
    /\ streams s' !! 1%nat = Some [false] /\ stream s' = None.
Proof.
  destruct (capture_sends_frame_and_releases sample_camera
              {| btn_text := "Cancel";
                 btn_classes :=
                   classList_add "btn-danger"
                     (classList_remove "btn-primary" {[ "btn"; "btn-primary" ]}) |}
              1 [true])
    as (s' & Hdone & _ & _ & _ & Hstreams & Hstream & _);
    try (vm_compute; reflexivity); try discriminate.
  exists s'. auto.
Defined.
